(** * Flappy Bird: the state-transition engine, its RNG and the ghost replay

    A shallow embedding of [src/state.ts] (the action classes [Tick], [Flap],
    [Pause], [Restart], [SpawnPipe] and their helpers), of [src/util.ts]
    ([RNG], [randomBetween], [clamp]) and of [calculateGhostPositions] from
    [src/observable.ts], followed by the properties of the specification.

    Numbers.  Every field of the program is a JavaScript [number].  The
    fields the program only ever uses as integers (clocks in milliseconds,
    counters, identifiers, the RNG seed) are [Z]; geometric quantities
    (positions, velocities, radii, the speed multiplier, random values) are
    exact rationals [Q].  The one place where the 53-bit mantissa of a double
    changes an integer result is [RNG.hash], whose product exceeds [2^53]: the
    rounding is written out there ([Num.fl53]).  Rational arithmetic is exact
    in the model; the rounding of non-integer doubles is not modelled. *)

From Stdlib Require Import ZArith QArith Qminmax List Bool Lia Lqa.
Import ListNotations.

Local Open Scope Z_scope.

(** ** JavaScript numbers *)

Module Num.

(** Round-to-nearest, ties-to-even, of an integer to a 53-bit mantissa: the
    double that JavaScript stores for the exact integer [z]. *)
Definition fl53 (z : Z) : Z :=
  let m := Z.abs z in
  if m <? 2 ^ 53 then z
  else
    let e := Z.log2 m - 52 in
    let q := m / 2 ^ e in
    let r := m mod 2 ^ e in
    let half := 2 ^ (e - 1) in
    let q' :=
      if r <? half then q
      else if half <? r then q + 1
      else if Z.even q then q else q + 1 in
    Z.sgn z * (q' * 2 ^ e).

(** [a < b], [a <= b] on rationals as booleans. *)
Definition ltb (a b : Q) : bool :=
  match Qcompare a b with Lt => true | _ => false end.

Definition leb (a b : Q) : bool :=
  match Qcompare a b with Gt => false | _ => true end.

End Num.

Declare Scope js_scope.
Delimit Scope js_scope with js.
Infix "<?" := Num.ltb (at level 70, no associativity) : js_scope.
Infix "<=?" := Num.leb (at level 70, no associativity) : js_scope.
Notation "a >? b" := (Num.ltb b a) (at level 70, no associativity) : js_scope.
Notation "a >=? b" := (Num.leb b a) (at level 70, no associativity) : js_scope.

(** ** util.ts *)

Module RNG.

Definition m : Z := 0x80000000.
Definition a : Z := 1103515245.
Definition c : Z := 12345.

(** [(RNG.a * seed + RNG.c) % RNG.m]: a double product, a double sum, and
    the remainder with the sign of the dividend ([Z.rem]). *)
Definition hash (seed : Z) : Z :=
  Z.rem (Num.fl53 (Num.fl53 (a * seed) + c)) m.

(** [hash / (RNG.m - 1)]. *)
Definition scale01 (hash : Z) : Q := (inject_Z hash / inject_Z (m - 1))%Q.

End RNG.

Record RandomResult : Type := mkRandomResult { value : Q; seed : Z }.

Definition randomBetween (currentSeed : Z) (minValue maxValue : Q) : RandomResult :=
  let nextSeed := RNG.hash currentSeed in
  let randomValue := (RNG.scale01 nextSeed * (maxValue - minValue) + minValue)%Q in
  {| value := randomValue; seed := nextSeed |}.

(** [Math.max(minBound, Math.min(maxBound, inputValue))]. *)
Definition clamp (inputValue minBound maxBound : Q) : Q :=
  Qmax minBound (Qmin maxBound inputValue).

(** ** types.ts *)

Module Vec2.
Record t : Type := mk { x : Q; y : Q }.
End Vec2.

Module Bird.
Record t : Type := mk { pos : Vec2.t; vel : Vec2.t; radius : Q }.
End Bird.

Module Pipe.
Record t : Type := mk {
  id : Z;
  x : Q;
  gapY : Q;
  gapHeight : Q;
  width : Q;
  passed : bool
}.
End Pipe.

Module GameHistory.
Record t : Type := mk { birdPositions : list Vec2.t; timestamp : Z }.
End GameHistory.

Module PipeData.
Record t : Type := mk { gapY : Q; gapHeight : Q; spawnTime : Q }.
End PipeData.

Inductive PowerUpType : Type := shrink | slowDown.

Definition PowerUpType_eqb (a b : PowerUpType) : bool :=
  match a, b with
  | shrink, shrink | slowDown, slowDown => true
  | _, _ => false
  end.

Module PowerUp.
Record t : Type := mk {
  id : Z;
  type : PowerUpType;
  pos : Vec2.t;
  collected : bool
}.
End PowerUp.

Record State : Type := mkState {
  bird : Bird.t;
  pipes : list Pipe.t;
  powerUps : list PowerUp.t;
  score : Z;
  lives : Z;
  gameEnd : bool;
  gameWon : bool;
  gameStarted : bool;
  isPaused : bool;
  countdown : Z;
  countdownTime : Z;
  time : Z;
  gameTime : Z;
  pipeSpawnQueue : list PipeData.t;
  originalPipeSpawnQueue : list PipeData.t;
  gameHistory : list GameHistory.t;
  currentRun : list Vec2.t;
  ghostBirds : list Vec2.t;
  gameCount : Z;
  rngSeed : Z;
  shrinkActive : bool;
  shrinkEndTime : Z;
  slowDownActive : bool;
  slowDownEndTime : Z;
  slowDownMultiplier : Q;
  powerUpsSpawned : Z;
  powerUpsCollected : Z;
  pipeSpawnIndex : Z;
  lastCollisionTime : Z;
  lastCollisionPipeId : Z
}.

(** ** state.ts: constants *)

Module Viewport.
Definition CANVAS_WIDTH : Q := 600.
Definition CANVAS_HEIGHT : Q := 400.
End Viewport.

Module Birb.
Definition WIDTH : Q := 42.
Definition HEIGHT : Q := 30.
Definition INITIAL_X : Q := (Viewport.CANVAS_WIDTH * (3 # 10))%Q.
Definition INITIAL_Y : Q := (Viewport.CANVAS_HEIGHT / 2)%Q.
End Birb.

Module Constants.
Definition PIPE_WIDTH : Q := 50.
Definition PIPE_SPEED : Q := 3.
Definition GRAVITY : Q := 1 # 2.
Definition FLAP_STRENGTH : Q := -7.
Definition BOUNCE_VELOCITY_MIN : Q := 4.
Definition BOUNCE_VELOCITY_MAX : Q := 7.
Definition COLLISION_COOLDOWN_MS : Z := 500.
Definition TICK_RATE_MS : Z := 16.
Definition INITIAL_LIVES : Z := 3.
Definition OFFSCREEN_THRESHOLD : Q := -50.
Definition COUNTDOWN_DURATION_MS : Z := 1000.
Definition POWERUP_SIZE : Q := 20.
Definition POWERUP_SPEED : Q := 1.
Definition SHRINK_DURATION : Z := 6000.
Definition SHRINK_SCALE : Q := 3 # 5.
Definition SLOW_DOWN_DURATION : Z := 8000.
Definition SLOW_DOWN_MIN_MULTIPLIER : Q := 3 # 10.
End Constants.

(** ** state.ts: entity factories and the initial state *)

Definition createBird (x y : Q) : Bird.t :=
  {| Bird.pos := {| Vec2.x := x; Vec2.y := y |};
     Bird.vel := {| Vec2.x := 0; Vec2.y := 0 |};
     Bird.radius := (Qmin Birb.WIDTH Birb.HEIGHT / 2 - 8)%Q |}.

Definition createPipe (id : Z) (x gapY gapHeight : Q) : Pipe.t :=
  {| Pipe.id := id;
     Pipe.x := x;
     Pipe.gapY := (gapY * Viewport.CANVAS_HEIGHT)%Q;
     Pipe.gapHeight := (gapHeight * Viewport.CANVAS_HEIGHT)%Q;
     Pipe.width := Constants.PIPE_WIDTH;
     Pipe.passed := false |}.

Definition createPowerUp (id : Z) (x y : Q) (type : PowerUpType) : PowerUp.t :=
  {| PowerUp.id := id;
     PowerUp.type := type;
     PowerUp.pos := {| Vec2.x := x; Vec2.y := y |};
     PowerUp.collected := false |}.

Definition initialState : State :=
  {| bird := createBird Birb.INITIAL_X Birb.INITIAL_Y;
     pipes := [];
     powerUps := [];
     score := 0;
     lives := Constants.INITIAL_LIVES;
     gameEnd := false;
     gameWon := false;
     gameStarted := false;
     isPaused := false;
     countdown := 0;
     countdownTime := 0;
     time := 0;
     gameTime := 0;
     pipeSpawnQueue := [];
     originalPipeSpawnQueue := [];
     gameHistory := [];
     currentRun := [];
     ghostBirds := [];
     gameCount := 0;
     rngSeed := 123456789;
     shrinkActive := false;
     shrinkEndTime := 0;
     slowDownActive := false;
     slowDownEndTime := 0;
     slowDownMultiplier := 1;
     powerUpsSpawned := 0;
     powerUpsCollected := 0;
     pipeSpawnIndex := 0;
     lastCollisionTime := 0;
     lastCollisionPipeId := -1 |}.

(** ** state.ts: pure helpers *)

Local Open Scope js_scope.

(** [Array.prototype.filter] with the two-argument callback
    [(element, index) => ...]; [i] is the index of the head of [l]. *)
Fixpoint filteri {A : Type} (f : A -> nat -> bool) (i : nat) (l : list A) : list A :=
  match l with
  | [] => []
  | a :: l' => if f a i then a :: filteri f (S i) l' else filteri f (S i) l'
  end.

Definition getCurrentBirdRadius (state : State) : Q :=
  let baseRadius := (Qmin Birb.WIDTH Birb.HEIGHT / 2 - 8)%Q in
  if shrinkActive state then (baseRadius * Constants.SHRINK_SCALE)%Q else baseRadius.

(** The object literal [{ ...state, slowDownActive: a, slowDownEndTime: e }]. *)
Definition withSlowDown (state : State) (a : bool) (e : Z) : State :=
  {| bird := bird state;
     pipes := pipes state;
     powerUps := powerUps state;
     score := score state;
     lives := lives state;
     gameEnd := gameEnd state;
     gameWon := gameWon state;
     gameStarted := gameStarted state;
     isPaused := isPaused state;
     countdown := countdown state;
     countdownTime := countdownTime state;
     time := time state;
     gameTime := gameTime state;
     pipeSpawnQueue := pipeSpawnQueue state;
     originalPipeSpawnQueue := originalPipeSpawnQueue state;
     gameHistory := gameHistory state;
     currentRun := currentRun state;
     ghostBirds := ghostBirds state;
     gameCount := gameCount state;
     rngSeed := rngSeed state;
     shrinkActive := shrinkActive state;
     shrinkEndTime := shrinkEndTime state;
     slowDownActive := a;
     slowDownEndTime := e;
     slowDownMultiplier := slowDownMultiplier state;
     powerUpsSpawned := powerUpsSpawned state;
     powerUpsCollected := powerUpsCollected state;
     pipeSpawnIndex := pipeSpawnIndex state;
     lastCollisionTime := lastCollisionTime state;
     lastCollisionPipeId := lastCollisionPipeId state |}.

Definition getCurrentSpeedMultiplier (state : State) (currentTime : Z) : Q :=
  if negb (slowDownActive state) || (slowDownEndTime state <=? currentTime)%Z then 1%Q
  else
    let elapsed :=
      (currentTime - (slowDownEndTime state - Constants.SLOW_DOWN_DURATION))%Z in
    let progress := (inject_Z elapsed / inject_Z Constants.SLOW_DOWN_DURATION)%Q in
    let currentMultiplier :=
      (Constants.SLOW_DOWN_MIN_MULTIPLIER * (1 - progress) + 1 * progress)%Q in
    Qmin 1 currentMultiplier.

Definition updatePowerUps (powerUps : list PowerUp.t) : list PowerUp.t :=
  filter
    (fun powerUp =>
       (Vec2.x (PowerUp.pos powerUp) + Constants.POWERUP_SIZE)%Q
         >? Constants.OFFSCREEN_THRESHOLD)
    (map
       (fun powerUp =>
          {| PowerUp.id := PowerUp.id powerUp;
             PowerUp.type := PowerUp.type powerUp;
             PowerUp.pos :=
               {| Vec2.x := (Vec2.x (PowerUp.pos powerUp) - Constants.POWERUP_SPEED)%Q;
                  Vec2.y := Vec2.y (PowerUp.pos powerUp) |};
             PowerUp.collected := PowerUp.collected powerUp |})
       powerUps).

Definition checkPowerUpCollision (bird : Bird.t) (powerUp : PowerUp.t) : bool :=
  let birdLeft := (Vec2.x (Bird.pos bird) - Bird.radius bird)%Q in
  let birdRight := (Vec2.x (Bird.pos bird) + Bird.radius bird)%Q in
  let birdTop := (Vec2.y (Bird.pos bird) - Bird.radius bird)%Q in
  let birdBottom := (Vec2.y (Bird.pos bird) + Bird.radius bird)%Q in
  let powerUpLeft := Vec2.x (PowerUp.pos powerUp) in
  let powerUpRight := (Vec2.x (PowerUp.pos powerUp) + Constants.POWERUP_SIZE)%Q in
  let powerUpTop := Vec2.y (PowerUp.pos powerUp) in
  let powerUpBottom := (Vec2.y (PowerUp.pos powerUp) + Constants.POWERUP_SIZE)%Q in
  (birdRight >? powerUpLeft) && (birdLeft <? powerUpRight)
  && (birdBottom >? powerUpTop) && (birdTop <? powerUpBottom).

Module SpawnDecision.
Record t : Type := mk {
  shouldSpawnShrink : bool;
  shouldSpawnSlowDown : bool;
  nextSeed : Z
}.
End SpawnDecision.

Definition shouldSpawnPowerUp (state : State) (seed : Z) : SpawnDecision.t :=
  let gameTimeSeconds := (inject_Z (gameTime state) / 1000)%Q in
  let hasShrinkPowerUp :=
    existsb
      (fun p => PowerUpType_eqb (PowerUp.type p) shrink && negb (PowerUp.collected p))
      (powerUps state) in
  let hasSlowDownPowerUp :=
    existsb
      (fun p => PowerUpType_eqb (PowerUp.type p) slowDown && negb (PowerUp.collected p))
      (powerUps state) in
  let shouldSpawnShrink :=
    (gameTimeSeconds >=? 10) && (gameTimeSeconds <? (101 # 10)) && negb hasShrinkPowerUp in
  let shouldSpawnSlowDown :=
    (gameTimeSeconds >=? 20) && (gameTimeSeconds <? (201 # 10)) && negb hasSlowDownPowerUp in
  {| SpawnDecision.shouldSpawnShrink := shouldSpawnShrink;
     SpawnDecision.shouldSpawnSlowDown := shouldSpawnSlowDown;
     SpawnDecision.nextSeed := seed |}.

Definition updateBirdPosition (bird : Bird.t) : Bird.t :=
  let newVelY := (Vec2.y (Bird.vel bird) + Constants.GRAVITY)%Q in
  let newPosY := (Vec2.y (Bird.pos bird) + newVelY)%Q in
  {| Bird.pos :=
       {| Vec2.x := Vec2.x (Bird.pos bird);
          Vec2.y :=
            clamp newPosY (Bird.radius bird)
              (Viewport.CANVAS_HEIGHT - Bird.radius bird)%Q |};
     Bird.vel := {| Vec2.x := Vec2.x (Bird.vel bird); Vec2.y := newVelY |};
     Bird.radius := Bird.radius bird |}.

Definition flapBird (bird : Bird.t) : Bird.t :=
  {| Bird.pos := Bird.pos bird;
     Bird.vel := {| Vec2.x := Vec2.x (Bird.vel bird); Vec2.y := Constants.FLAP_STRENGTH |};
     Bird.radius := Bird.radius bird |}.

Definition bounceBird (bird : Bird.t) (bounceVelocity : Q) : Bird.t :=
  {| Bird.pos := Bird.pos bird;
     Bird.vel := {| Vec2.x := Vec2.x (Bird.vel bird); Vec2.y := bounceVelocity |};
     Bird.radius := Bird.radius bird |}.

Definition movePipes (speedMultiplier : Q) (pipes : list Pipe.t) : list Pipe.t :=
  map
    (fun pipe =>
       {| Pipe.id := Pipe.id pipe;
          Pipe.x := (Pipe.x pipe - Constants.PIPE_SPEED * speedMultiplier)%Q;
          Pipe.gapY := Pipe.gapY pipe;
          Pipe.gapHeight := Pipe.gapHeight pipe;
          Pipe.width := Pipe.width pipe;
          Pipe.passed := Pipe.passed pipe |})
    pipes.

Definition removeOffscreenPipes (pipes : list Pipe.t) : list Pipe.t :=
  filter
    (fun pipe => (Pipe.x pipe + Pipe.width pipe)%Q >? Constants.OFFSCREEN_THRESHOLD)
    pipes.

Definition checkBirdPipeCollision (bird : Bird.t) (pipe : Pipe.t) : bool :=
  let birdLeft := (Vec2.x (Bird.pos bird) - Bird.radius bird)%Q in
  let birdRight := (Vec2.x (Bird.pos bird) + Bird.radius bird)%Q in
  let birdTop := (Vec2.y (Bird.pos bird) - Bird.radius bird)%Q in
  let birdBottom := (Vec2.y (Bird.pos bird) + Bird.radius bird)%Q in
  let pipeLeft := Pipe.x pipe in
  let pipeRight := (Pipe.x pipe + Pipe.width pipe)%Q in
  let gapTop := (Pipe.gapY pipe - Pipe.gapHeight pipe / 2)%Q in
  let gapBottom := (Pipe.gapY pipe + Pipe.gapHeight pipe / 2)%Q in
  if (birdRight >? pipeLeft) && (birdLeft <? pipeRight)
  then (birdTop <? gapTop) || (birdBottom >? gapBottom)
  else false.

Definition checkBoundaryCollision (bird : Bird.t) : bool :=
  (Vec2.y (Bird.pos bird) <=? Bird.radius bird)
  || (Vec2.y (Bird.pos bird) >=? (Viewport.CANVAS_HEIGHT - Bird.radius bird)%Q).

Module Scored.
Record t : Type := mk { score : Z; pipes : list Pipe.t }.
End Scored.

(** The pipe as [updateScore] leaves it: marked once the bird is past its
    right edge, untouched otherwise. *)
Definition markPassed (bird : Bird.t) (pipe : Pipe.t) : Pipe.t :=
  if negb (Pipe.passed pipe)
     && (Vec2.x (Bird.pos bird) >? (Pipe.x pipe + Pipe.width pipe)%Q)
  then
    {| Pipe.id := Pipe.id pipe;
       Pipe.x := Pipe.x pipe;
       Pipe.gapY := Pipe.gapY pipe;
       Pipe.gapHeight := Pipe.gapHeight pipe;
       Pipe.width := Pipe.width pipe;
       Pipe.passed := true |}
  else pipe.

Definition updateScore (bird : Bird.t) (pipes : list Pipe.t) (currentScore : Z) : Scored.t :=
  let updatedPipes := map (markPassed bird) pipes in
  let newlyPassedPipes :=
    filteri
      (fun pipe index =>
         match nth_error pipes index with
         | Some before => Pipe.passed pipe && negb (Pipe.passed before)
         | None => false (* [pipes[index]] of a missing index: not reached, the lists have one length *)
         end)
      0 updatedPipes in
  {| Scored.score := (currentScore + Z.of_nat (length newlyPassedPipes))%Z;
     Scored.pipes := updatedPipes |}.

Module Bounce.
Record t : Type := mk { bounceVelocity : Q; nextSeed : Z }.
End Bounce.

Definition calculateBounce
    (bird : Bird.t) (pipes : list Pipe.t) (boundaryCollision : bool) (seed0 : Z) : Bounce.t :=
  let randomResult :=
    randomBetween seed0 Constants.BOUNCE_VELOCITY_MIN Constants.BOUNCE_VELOCITY_MAX in
  if boundaryCollision then
    let velocity :=
      if Vec2.y (Bird.pos bird) <=? Bird.radius bird
      then value randomResult
      else (- value randomResult)%Q in
    {| Bounce.bounceVelocity := velocity; Bounce.nextSeed := seed randomResult |}
  else
    match find (fun pipe => checkBirdPipeCollision bird pipe) pipes with
    | Some collidedPipe =>
        let gapCenter := Pipe.gapY collidedPipe in
        let velocity :=
          if Vec2.y (Bird.pos bird) <? gapCenter
          then value randomResult
          else (- value randomResult)%Q in
        {| Bounce.bounceVelocity := velocity; Bounce.nextSeed := seed randomResult |}
    | None =>
        {| Bounce.bounceVelocity := value randomResult;
           Bounce.nextSeed := seed randomResult |}
    end.

(** ** state.ts: the actions *)

(** The local constants of [Tick.apply], in the order of the source; each is
    a function of the state the tick is applied to. *)
Section TickLocals.

Variable currentState : State.

Definition newTime : Z := (time currentState + Constants.TICK_RATE_MS)%Z.

Definition elapsedSinceCountdown : Z := (newTime - countdownTime currentState)%Z.

(** [Math.max(0, 3 - Math.floor(elapsed / COUNTDOWN_DURATION_MS))]. *)
Definition newCountdown : Z :=
  Z.max 0 (3 - elapsedSinceCountdown / Constants.COUNTDOWN_DURATION_MS)%Z.

Definition newGameTime : Z := (gameTime currentState + Constants.TICK_RATE_MS)%Z.

Definition tempSlowDownActive : bool :=
  slowDownActive currentState && (newTime <? slowDownEndTime currentState)%Z.

Definition currentSpeedMultiplier : Q :=
  getCurrentSpeedMultiplier
    (withSlowDown currentState tempSlowDownActive (slowDownEndTime currentState))
    newTime.

Definition currentBirdRadius : Q := getCurrentBirdRadius currentState.

Definition updatedBird : Bird.t :=
  {| Bird.pos := Bird.pos (updateBirdPosition (bird currentState));
     Bird.vel := Bird.vel (updateBirdPosition (bird currentState));
     Bird.radius := currentBirdRadius |}.

Definition movedPipes : list Pipe.t :=
  movePipes currentSpeedMultiplier (pipes currentState).

Definition cleanedPipes : list Pipe.t := removeOffscreenPipes movedPipes.

Definition scoreResult : Scored.t :=
  updateScore updatedBird cleanedPipes (score currentState).

Definition newScore : Z := Scored.score scoreResult.

Definition scoredPipes : list Pipe.t := Scored.pipes scoreResult.

Definition updatedPowerUps : list PowerUp.t := updatePowerUps (powerUps currentState).

Definition collectedPowerUps : list PowerUp.t :=
  filter
    (fun powerUp =>
       negb (PowerUp.collected powerUp) && checkPowerUpCollision updatedBird powerUp)
    updatedPowerUps.

Definition powerUpsAfterCollection : list PowerUp.t :=
  filter
    (fun powerUp => negb (PowerUp.collected powerUp))
    (map
       (fun powerUp =>
          if existsb
               (fun collected => (PowerUp.id collected =? PowerUp.id powerUp)%Z)
               collectedPowerUps
          then
            {| PowerUp.id := PowerUp.id powerUp;
               PowerUp.type := PowerUp.type powerUp;
               PowerUp.pos := PowerUp.pos powerUp;
               PowerUp.collected := true |}
          else powerUp)
       updatedPowerUps).

Definition shrinkActivated : bool :=
  existsb (fun powerUp => PowerUpType_eqb (PowerUp.type powerUp) shrink) collectedPowerUps.

Definition newShrinkActive : bool :=
  shrinkActivated
  || (shrinkActive currentState && (newTime <? shrinkEndTime currentState)%Z).

Definition newShrinkEndTime : Z :=
  if shrinkActivated then (newTime + Constants.SHRINK_DURATION)%Z
  else shrinkEndTime currentState.

Definition slowDownActivated : bool :=
  existsb (fun powerUp => PowerUpType_eqb (PowerUp.type powerUp) slowDown) collectedPowerUps.

Definition newSlowDownActive : bool :=
  slowDownActivated
  || (slowDownActive currentState && (newTime <? slowDownEndTime currentState)%Z).

Definition newSlowDownEndTime : Z :=
  if slowDownActivated then (newTime + Constants.SLOW_DOWN_DURATION)%Z
  else slowDownEndTime currentState.

Definition finalSpeedMultiplier : Q :=
  getCurrentSpeedMultiplier
    (withSlowDown currentState newSlowDownActive newSlowDownEndTime)
    newTime.

Definition newPowerUpsCollected : Z :=
  (powerUpsCollected currentState + Z.of_nat (length collectedPowerUps))%Z.

(** Collision detection. *)
Definition collidedPipe : option Pipe.t :=
  find (fun pipe => checkBirdPipeCollision updatedBird pipe) scoredPipes.

Definition pipeCollision : bool :=
  match collidedPipe with Some _ => true | None => false end.

Definition boundaryCollision : bool := checkBoundaryCollision updatedBird.

Definition hasPhysicalCollision : bool := pipeCollision || boundaryCollision.

Definition timeSinceLastCollision : Z := (newTime - lastCollisionTime currentState)%Z.

Definition canTakeDamage : bool :=
  (Constants.COLLISION_COOLDOWN_MS <=? timeSinceLastCollision)%Z.

(** [collidedPipe?.id !== currentState.lastCollisionPipeId]: with no
    collided pipe the left side is [undefined], which is strictly unequal to
    every number. *)
Definition isDifferentPipe : bool :=
  match collidedPipe with
  | Some pipe => negb (Pipe.id pipe =? lastCollisionPipeId currentState)%Z
  | None => true
  end.

Definition hasDamageCollision : bool :=
  hasPhysicalCollision && (canTakeDamage || isDifferentPipe).

Definition newCurrentRun : list Vec2.t :=
  currentRun currentState ++ [Bird.pos updatedBird].

Definition allPipesCleared : bool :=
  (Z.of_nat (length (pipeSpawnQueue currentState)) <=? pipeSpawnIndex currentState)%Z
  && (length scoredPipes =? 0)%nat.

(** Power-up spawning. *)
Definition spawnResult : SpawnDecision.t :=
  shouldSpawnPowerUp currentState (rngSeed currentState).

Definition spawnPowerUpIfNeeded
    (existingPowerUps : list PowerUp.t) (shouldSpawn : bool)
    (powerUpType : PowerUpType) (seed0 : Z) (idOffset : Z) : list PowerUp.t :=
  if negb shouldSpawn then existingPowerUps
  else
    let middleStart := (Viewport.CANVAS_HEIGHT * (33 # 100))%Q in
    let middleEnd := (Viewport.CANVAS_HEIGHT * (67 # 100))%Q in
    let yPosition :=
      randomBetween seed0 middleStart (middleEnd - Constants.POWERUP_SIZE)%Q in
    existingPowerUps
      ++ [createPowerUp (newTime + idOffset)%Z Viewport.CANVAS_WIDTH
            (value yPosition) powerUpType].

Definition powerUpsWithShrink : list PowerUp.t :=
  spawnPowerUpIfNeeded powerUpsAfterCollection
    (SpawnDecision.shouldSpawnShrink spawnResult) shrink
    (SpawnDecision.nextSeed spawnResult) 0.

Definition workingPowerUps : list PowerUp.t :=
  spawnPowerUpIfNeeded powerUpsWithShrink
    (SpawnDecision.shouldSpawnSlowDown spawnResult) slowDown
    (SpawnDecision.nextSeed spawnResult + 1000)%Z 1.

Definition newPowerUpsSpawned : Z :=
  (powerUpsSpawned currentState
   + (if SpawnDecision.shouldSpawnShrink spawnResult then 1 else 0)
   + (if SpawnDecision.shouldSpawnSlowDown spawnResult then 1 else 0))%Z.

Definition baseState : State :=
  {| bird := updatedBird;
     pipes := scoredPipes;
     powerUps := workingPowerUps;
     score := newScore;
     lives := lives currentState;
     gameEnd := allPipesCleared;
     gameWon := allPipesCleared;
     gameStarted := gameStarted currentState;
     isPaused := isPaused currentState;
     countdown := countdown currentState;
     countdownTime := countdownTime currentState;
     time := newTime;
     gameTime := newGameTime;
     pipeSpawnQueue := pipeSpawnQueue currentState;
     originalPipeSpawnQueue := originalPipeSpawnQueue currentState;
     gameHistory := gameHistory currentState;
     currentRun := newCurrentRun;
     ghostBirds := ghostBirds currentState;
     gameCount := gameCount currentState;
     rngSeed := SpawnDecision.nextSeed spawnResult;
     shrinkActive := newShrinkActive;
     shrinkEndTime := newShrinkEndTime;
     slowDownActive := newSlowDownActive;
     slowDownEndTime := newSlowDownEndTime;
     slowDownMultiplier := finalSpeedMultiplier;
     powerUpsSpawned := newPowerUpsSpawned;
     powerUpsCollected := newPowerUpsCollected;
     pipeSpawnIndex := pipeSpawnIndex currentState;
     lastCollisionTime := lastCollisionTime currentState;
     lastCollisionPipeId := lastCollisionPipeId currentState |}.

(** Collision response. *)
Definition bounceComputation : Bounce.t :=
  calculateBounce updatedBird scoredPipes boundaryCollision (rngSeed baseState).

Definition bouncedBird : Bird.t :=
  bounceBird (bird baseState) (Bounce.bounceVelocity bounceComputation).

Definition newLives : Z :=
  if hasDamageCollision then (lives baseState - 1)%Z else lives baseState.

Definition collisionState : State :=
  {| bird := bouncedBird;
     pipes := pipes baseState;
     powerUps := powerUps baseState;
     score := score baseState;
     lives := newLives;
     gameEnd := gameEnd baseState || (newLives <=? 0)%Z;
     gameWon := gameWon baseState && (0 <? newLives)%Z;
     gameStarted := gameStarted baseState;
     isPaused := isPaused baseState;
     countdown := countdown baseState;
     countdownTime := countdownTime baseState;
     time := time baseState;
     gameTime := gameTime baseState;
     pipeSpawnQueue := pipeSpawnQueue baseState;
     originalPipeSpawnQueue := originalPipeSpawnQueue baseState;
     gameHistory := gameHistory baseState;
     currentRun := currentRun baseState;
     ghostBirds := ghostBirds baseState;
     gameCount := gameCount baseState;
     rngSeed := Bounce.nextSeed bounceComputation;
     shrinkActive := shrinkActive baseState;
     shrinkEndTime := shrinkEndTime baseState;
     slowDownActive := newSlowDownActive;
     slowDownEndTime := newSlowDownEndTime;
     slowDownMultiplier := finalSpeedMultiplier;
     powerUpsSpawned := powerUpsSpawned baseState;
     powerUpsCollected := powerUpsCollected baseState;
     pipeSpawnIndex := pipeSpawnIndex baseState;
     lastCollisionTime :=
       if hasDamageCollision then newTime else lastCollisionTime baseState;
     lastCollisionPipeId :=
       if hasDamageCollision
       then match collidedPipe with Some pipe => Pipe.id pipe | None => (-1)%Z end
       else lastCollisionPipeId baseState |}.

(** The state returned while the resume countdown runs:
    [{ ...currentState, time: newTime, countdown: newCountdown }]. *)
Definition countdownState : State :=
  {| bird := bird currentState;
     pipes := pipes currentState;
     powerUps := powerUps currentState;
     score := score currentState;
     lives := lives currentState;
     gameEnd := gameEnd currentState;
     gameWon := gameWon currentState;
     gameStarted := gameStarted currentState;
     isPaused := isPaused currentState;
     countdown := newCountdown;
     countdownTime := countdownTime currentState;
     time := newTime;
     gameTime := gameTime currentState;
     pipeSpawnQueue := pipeSpawnQueue currentState;
     originalPipeSpawnQueue := originalPipeSpawnQueue currentState;
     gameHistory := gameHistory currentState;
     currentRun := currentRun currentState;
     ghostBirds := ghostBirds currentState;
     gameCount := gameCount currentState;
     rngSeed := rngSeed currentState;
     shrinkActive := shrinkActive currentState;
     shrinkEndTime := shrinkEndTime currentState;
     slowDownActive := slowDownActive currentState;
     slowDownEndTime := slowDownEndTime currentState;
     slowDownMultiplier := slowDownMultiplier currentState;
     powerUpsSpawned := powerUpsSpawned currentState;
     powerUpsCollected := powerUpsCollected currentState;
     pipeSpawnIndex := pipeSpawnIndex currentState;
     lastCollisionTime := lastCollisionTime currentState;
     lastCollisionPipeId := lastCollisionPipeId currentState |}.

Definition Tick_apply : State :=
  if gameEnd currentState || negb (gameStarted currentState) || isPaused currentState
  then currentState
  else if (0 <? countdown currentState)%Z then countdownState
  else if hasPhysicalCollision then collisionState
  else baseState.

End TickLocals.

Definition Restart_apply (currentState : State) : State :=
  let newGameHistory :=
    if (0 <? length (currentRun currentState))%nat
    then
      gameHistory currentState
        ++ [{| GameHistory.birdPositions := currentRun currentState;
               GameHistory.timestamp := time currentState |}]
    else gameHistory currentState in
  {| bird := bird initialState;
     pipes := pipes initialState;
     powerUps := powerUps initialState;
     score := score initialState;
     lives := lives initialState;
     gameEnd := gameEnd initialState;
     gameWon := gameWon initialState;
     gameStarted := gameStarted initialState;
     isPaused := isPaused initialState;
     countdown := countdown initialState;
     countdownTime := countdownTime initialState;
     time := time initialState;
     gameTime := gameTime initialState;
     pipeSpawnQueue := originalPipeSpawnQueue currentState;
     originalPipeSpawnQueue := originalPipeSpawnQueue currentState;
     gameHistory := newGameHistory;
     currentRun := currentRun initialState;
     ghostBirds := ghostBirds initialState;
     gameCount := (gameCount currentState + 1)%Z;
     rngSeed := rngSeed initialState;
     shrinkActive := shrinkActive initialState;
     shrinkEndTime := shrinkEndTime initialState;
     slowDownActive := slowDownActive initialState;
     slowDownEndTime := slowDownEndTime initialState;
     slowDownMultiplier := slowDownMultiplier initialState;
     powerUpsSpawned := powerUpsSpawned initialState;
     powerUpsCollected := powerUpsCollected initialState;
     pipeSpawnIndex := pipeSpawnIndex initialState;
     lastCollisionTime := lastCollisionTime initialState;
     lastCollisionPipeId := lastCollisionPipeId initialState |}.

(** [{ ...currentState, bird: b, gameStarted: started, gameTime: t }]. *)
Definition withBirdStartedGameTime
    (currentState : State) (b : Bird.t) (started : bool) (t : Z) : State :=
  {| bird := b;
     pipes := pipes currentState;
     powerUps := powerUps currentState;
     score := score currentState;
     lives := lives currentState;
     gameEnd := gameEnd currentState;
     gameWon := gameWon currentState;
     gameStarted := started;
     isPaused := isPaused currentState;
     countdown := countdown currentState;
     countdownTime := countdownTime currentState;
     time := time currentState;
     gameTime := t;
     pipeSpawnQueue := pipeSpawnQueue currentState;
     originalPipeSpawnQueue := originalPipeSpawnQueue currentState;
     gameHistory := gameHistory currentState;
     currentRun := currentRun currentState;
     ghostBirds := ghostBirds currentState;
     gameCount := gameCount currentState;
     rngSeed := rngSeed currentState;
     shrinkActive := shrinkActive currentState;
     shrinkEndTime := shrinkEndTime currentState;
     slowDownActive := slowDownActive currentState;
     slowDownEndTime := slowDownEndTime currentState;
     slowDownMultiplier := slowDownMultiplier currentState;
     powerUpsSpawned := powerUpsSpawned currentState;
     powerUpsCollected := powerUpsCollected currentState;
     pipeSpawnIndex := pipeSpawnIndex currentState;
     lastCollisionTime := lastCollisionTime currentState;
     lastCollisionPipeId := lastCollisionPipeId currentState |}.

Definition Flap_apply (currentState : State) : State :=
  if gameEnd currentState then Restart_apply currentState
  else if isPaused currentState then currentState
  else if negb (gameStarted currentState)
  then withBirdStartedGameTime currentState (flapBird (bird currentState)) true 0
  else
    withBirdStartedGameTime currentState (flapBird (bird currentState))
      (gameStarted currentState) (gameTime currentState).

(** [{ ...currentState, isPaused: p, countdown: c, countdownTime: t }]. *)
Definition withPause (currentState : State) (p : bool) (c t : Z) : State :=
  {| bird := bird currentState;
     pipes := pipes currentState;
     powerUps := powerUps currentState;
     score := score currentState;
     lives := lives currentState;
     gameEnd := gameEnd currentState;
     gameWon := gameWon currentState;
     gameStarted := gameStarted currentState;
     isPaused := p;
     countdown := c;
     countdownTime := t;
     time := time currentState;
     gameTime := gameTime currentState;
     pipeSpawnQueue := pipeSpawnQueue currentState;
     originalPipeSpawnQueue := originalPipeSpawnQueue currentState;
     gameHistory := gameHistory currentState;
     currentRun := currentRun currentState;
     ghostBirds := ghostBirds currentState;
     gameCount := gameCount currentState;
     rngSeed := rngSeed currentState;
     shrinkActive := shrinkActive currentState;
     shrinkEndTime := shrinkEndTime currentState;
     slowDownActive := slowDownActive currentState;
     slowDownEndTime := slowDownEndTime currentState;
     slowDownMultiplier := slowDownMultiplier currentState;
     powerUpsSpawned := powerUpsSpawned currentState;
     powerUpsCollected := powerUpsCollected currentState;
     pipeSpawnIndex := pipeSpawnIndex currentState;
     lastCollisionTime := lastCollisionTime currentState;
     lastCollisionPipeId := lastCollisionPipeId currentState |}.

Definition Pause_apply (currentState : State) : State :=
  if negb (gameStarted currentState) || gameEnd currentState then currentState
  else if isPaused currentState
  then withPause currentState false 3 (time currentState)
  else withPause currentState true 0 0.

Definition SpawnPipe_apply (pipeData : PipeData.t) (pipeId : Z) (currentState : State) : State :=
  let newPipe :=
    createPipe pipeId Viewport.CANVAS_WIDTH
      (PipeData.gapY pipeData) (PipeData.gapHeight pipeData) in
  {| bird := bird currentState;
     pipes := pipes currentState ++ [newPipe];
     powerUps := powerUps currentState;
     score := score currentState;
     lives := lives currentState;
     gameEnd := gameEnd currentState;
     gameWon := gameWon currentState;
     gameStarted := gameStarted currentState;
     isPaused := isPaused currentState;
     countdown := countdown currentState;
     countdownTime := countdownTime currentState;
     time := time currentState;
     gameTime := gameTime currentState;
     pipeSpawnQueue := pipeSpawnQueue currentState;
     originalPipeSpawnQueue := originalPipeSpawnQueue currentState;
     gameHistory := gameHistory currentState;
     currentRun := currentRun currentState;
     ghostBirds := ghostBirds currentState;
     gameCount := gameCount currentState;
     rngSeed := rngSeed currentState;
     shrinkActive := shrinkActive currentState;
     shrinkEndTime := shrinkEndTime currentState;
     slowDownActive := slowDownActive currentState;
     slowDownEndTime := slowDownEndTime currentState;
     slowDownMultiplier := slowDownMultiplier currentState;
     powerUpsSpawned := powerUpsSpawned currentState;
     powerUpsCollected := powerUpsCollected currentState;
     pipeSpawnIndex := (pipeSpawnIndex currentState + 1)%Z;
     lastCollisionTime := lastCollisionTime currentState;
     lastCollisionPipeId := lastCollisionPipeId currentState |}.

(** The five classes that implement [Action], and [reduceState]. *)
Inductive Action : Type :=
| Tick
| Flap
| Pause
| Restart
| SpawnPipe (pipeData : PipeData.t) (pipeId : Z).

Definition apply (action : Action) (s : State) : State :=
  match action with
  | Tick => Tick_apply s
  | Flap => Flap_apply s
  | Pause => Pause_apply s
  | Restart => Restart_apply s
  | SpawnPipe pipeData pipeId => SpawnPipe_apply pipeData pipeId s
  end.

Definition reduceState (s : State) (action : Action) : State := apply action s.

(** ** observable.ts: ghost replay *)

(** What the callback of [map] in [calculateGhostPositions] can produce: a
    recorded position, [null] (the run is over), or [undefined] (an array read
    outside the array). *)
Inductive Ghost : Type :=
| GhostAt (position : Vec2.t)
| GhostNull
| GhostUndefined.

(** [array[index]] for an integer [index]. *)
Definition readAt (array : list Vec2.t) (index : Z) : Ghost :=
  if (index <? 0)%Z then GhostUndefined
  else
    match nth_error array (Z.to_nat index) with
    | Some position => GhostAt position
    | None => GhostUndefined
    end.

(** The callback of [historicalRecords.map(...)]. *)
Definition positionAtFrame (animationFrame : Z) (pastGameRecord : GameHistory.t) : Ghost :=
  if (animationFrame <? Z.of_nat (length (GameHistory.birdPositions pastGameRecord)))%Z
  then readAt (GameHistory.birdPositions pastGameRecord) animationFrame
  else GhostNull.

(** The callback of [.filter(birdPosition => birdPosition !== null)]. *)
Definition notNull (birdPosition : Ghost) : bool :=
  match birdPosition with GhostNull => false | _ => true end.

Definition calculateGhostPositions
    (historicalRecords : list GameHistory.t) (animationFrame : Z) (gameState : State)
    : list Ghost :=
  if negb (gameStarted gameState) || (length historicalRecords =? 0)%nat then []
  else filter notNull (map (positionAtFrame animationFrame) historicalRecords).

(** ** Predicates on states *)

Local Close Scope js_scope.

(** The guard of the first [return] of [Tick.apply]. *)
Definition idle (s : State) : bool :=
  gameEnd s || negb (gameStarted s) || isPaused s.

(** The tick runs the simulation: the run is live and no countdown is shown. *)
Definition simulating (s : State) : bool :=
  negb (idle s) && (countdown s <=? 0).

(** A run of ticks. *)
Fixpoint ticks (n : nat) (s : State) : State :=
  match n with
  | O => s
  | S k => ticks k (Tick_apply s)
  end.

(** The only thing the bird touches in this tick, if anything, is the pipe
    [pipeId]: the collided pipe is that pipe, or there is no collided pipe and
    no boundary collision either. *)
Definition hitsOnly (pipeId : Z) (s : State) : bool :=
  match collidedPipe s with
  | Some pipe => Pipe.id pipe =? pipeId
  | None => negb (boundaryCollision s)
  end.

(** [n] ticks from [s], each touching at most the pipe [lastPipe] and each
    at a time before [lastTime + COLLISION_COOLDOWN_MS]. *)
Fixpoint samePipeRun (lastTime lastPipe : Z) (n : nat) (s : State) : bool :=
  match n with
  | O => true
  | S k =>
      hitsOnly lastPipe s
      && (newTime s <? lastTime + Constants.COLLISION_COOLDOWN_MS)
      && samePipeRun lastTime lastPipe k (Tick_apply s)
  end.

(** The number of positions at which [passed] is false in [before] and true
    in [after]. *)
Definition flips (before after : list Pipe.t) : nat :=
  length
    (filter
       (fun pair => negb (Pipe.passed (fst pair)) && Pipe.passed (snd pair))
       (combine before after)).

(** The pipe is not yet marked and the bird is past its right edge. *)
Definition justPassed (b : Bird.t) (pipe : Pipe.t) : bool :=
  negb (Pipe.passed pipe)
  && Num.ltb (Pipe.x pipe + Pipe.width pipe)%Q (Vec2.x (Bird.pos b)).

(** What one history entry contributes to the list of ghosts. *)
Definition ghostOf (animationFrame : Z) (h : GameHistory.t) : list Ghost :=
  filter notNull [positionAtFrame animationFrame h].

(** ** Scenarios: the states the concrete properties start from *)

(** [{ ...initialState, gameStarted: true, bird, pipes, pipeSpawnQueue, lives,
    time, gameTime, lastCollisionTime, lastCollisionPipeId }]. *)
Definition scenario
    (b : Bird.t) (ps : list Pipe.t) (queue : list PipeData.t)
    (l t gt lastTime lastPipe : Z) : State :=
  {| bird := b;
     pipes := ps;
     powerUps := powerUps initialState;
     score := score initialState;
     lives := l;
     gameEnd := gameEnd initialState;
     gameWon := gameWon initialState;
     gameStarted := true;
     isPaused := isPaused initialState;
     countdown := countdown initialState;
     countdownTime := countdownTime initialState;
     time := t;
     gameTime := gt;
     pipeSpawnQueue := queue;
     originalPipeSpawnQueue := originalPipeSpawnQueue initialState;
     gameHistory := gameHistory initialState;
     currentRun := currentRun initialState;
     ghostBirds := ghostBirds initialState;
     gameCount := gameCount initialState;
     rngSeed := rngSeed initialState;
     shrinkActive := shrinkActive initialState;
     shrinkEndTime := shrinkEndTime initialState;
     slowDownActive := slowDownActive initialState;
     slowDownEndTime := slowDownEndTime initialState;
     slowDownMultiplier := slowDownMultiplier initialState;
     powerUpsSpawned := powerUpsSpawned initialState;
     powerUpsCollected := powerUpsCollected initialState;
     pipeSpawnIndex := pipeSpawnIndex initialState;
     lastCollisionTime := lastTime;
     lastCollisionPipeId := lastPipe |}.

(** [{ ...s, time: t }]. *)
Definition withTime (s : State) (t : Z) : State :=
  {| bird := bird s;
     pipes := pipes s;
     powerUps := powerUps s;
     score := score s;
     lives := lives s;
     gameEnd := gameEnd s;
     gameWon := gameWon s;
     gameStarted := gameStarted s;
     isPaused := isPaused s;
     countdown := countdown s;
     countdownTime := countdownTime s;
     time := t;
     gameTime := gameTime s;
     pipeSpawnQueue := pipeSpawnQueue s;
     originalPipeSpawnQueue := originalPipeSpawnQueue s;
     gameHistory := gameHistory s;
     currentRun := currentRun s;
     ghostBirds := ghostBirds s;
     gameCount := gameCount s;
     rngSeed := rngSeed s;
     shrinkActive := shrinkActive s;
     shrinkEndTime := shrinkEndTime s;
     slowDownActive := slowDownActive s;
     slowDownEndTime := slowDownEndTime s;
     slowDownMultiplier := slowDownMultiplier s;
     powerUpsSpawned := powerUpsSpawned s;
     powerUpsCollected := powerUpsCollected s;
     pipeSpawnIndex := pipeSpawnIndex s;
     lastCollisionTime := lastCollisionTime s;
     lastCollisionPipeId := lastCollisionPipeId s |}.

(** A schedule with one obstacle still to come: the run is not yet won. *)
Definition oneObstacle : list PipeData.t :=
  [{| PipeData.gapY := 1 # 2; PipeData.gapHeight := 3 # 10; PipeData.spawnTime := 2000 |}].

(** [{ ...initialState, gameStarted: true, time: 10000 }]. *)
Definition runningAt10000 : State :=
  scenario (bird initialState) [] [] Constants.INITIAL_LIVES 10000 0 0 (-1).

Definition pausedState : State := Pause_apply runningAt10000.
Definition unpausedState : State := Pause_apply pausedState.

(** A pipe across the bird's column whose gap lies far above the bird. *)
Definition wallPipe : Pipe.t :=
  createPipe 1 (Vec2.x (Bird.pos (bird initialState))) (1 # 10) (15 # 100).

(** The bird is inside [wallPipe] (id 1) at time 1000; the last damage was
    registered at time 1000 against pipe 1, respectively against pipe 2. *)
Definition hitSamePipe (l : Z) : State :=
  scenario (bird initialState) [wallPipe] oneObstacle l 1000 0 1000 1.

Definition hitOtherPipe (l : Z) : State :=
  scenario (bird initialState) [wallPipe] oneObstacle l 1000 0 1000 2.

(** One tick after a damaging hit that took the run from two lives to one. *)
Definition afterFirstHit : State := Tick_apply (hitOtherPipe 2).

Definition topBird : Bird.t :=
  {| Bird.pos := {| Vec2.x := 180; Vec2.y := 7 |};
     Bird.vel := {| Vec2.x := 0; Vec2.y := -5 |};
     Bird.radius := 7 |}.

(** The bird is at the ceiling, moving up, 16 ms after a boundary hit was
    registered as damage (time 1016, pipe id -1). *)
Definition hitCeiling : State :=
  scenario topBird [] oneObstacle 3 1016 16 1016 (-1).

(** Ten seconds into a run, no power-up on screen, nothing near the bird. *)
Definition spawnState : State :=
  scenario (bird initialState) [] oneObstacle 3 10000 10000 0 (-1).

(** A run with no schedule at all, the bird at the ceiling. *)
Definition emptyScheduleAtCeiling : State :=
  scenario topBird [] [] 3 0 0 0 (-1).

(** A bird that has just flown past a pipe not yet marked. *)
Definition scoringState : State :=
  scenario (createBird 160 200) [createPipe 1 100 (1 # 2) (3 # 10)] oneObstacle 3 0 0 0 (-1).

(** A run that ended after one recorded position. *)
Definition wonRun : State :=
  Tick_apply (scenario (bird initialState) [] [] 3 0 0 0 (-1)).

(** The history of the replay test: one run of three positions. *)
Definition mockHistory : list GameHistory.t :=
  [{| GameHistory.birdPositions :=
        [ {| Vec2.x := 10; Vec2.y := 10 |};
          {| Vec2.x := 11; Vec2.y := 12 |};
          {| Vec2.x := 12; Vec2.y := 15 |} ];
      GameHistory.timestamp := 12345 |}].

(** [after] is [before] one tick later: the same pipe, possibly moved and
    possibly marked, never unmarked. *)
Definition samePipeLater (before after : Pipe.t) : Prop :=
  Pipe.id after = Pipe.id before
  /\ Pipe.gapY after = Pipe.gapY before
  /\ Pipe.gapHeight after = Pipe.gapHeight before
  /\ Pipe.width after = Pipe.width before
  /\ (Pipe.passed before = true -> Pipe.passed after = true).

(** The fields of the game proper: what a pause and its countdown must not
    touch. *)
Definition sameGame (s s' : State) : Prop :=
  bird s' = bird s
  /\ pipes s' = pipes s
  /\ powerUps s' = powerUps s
  /\ score s' = score s
  /\ lives s' = lives s
  /\ gameTime s' = gameTime s
  /\ currentRun s' = currentRun s
  /\ rngSeed s' = rngSeed s
  /\ gameEnd s' = gameEnd s
  /\ gameStarted s' = gameStarted s.

(** ** observable.ts: the fold over the action stream *)

(** The seed of [scan]:
    [{ ...initialState, pipeSpawnQueue, originalPipeSpawnQueue: pipeSpawnQueue }]. *)
Definition startState (pipeSpawnQueue0 : list PipeData.t) : State :=
  {| bird := bird initialState;
     pipes := pipes initialState;
     powerUps := powerUps initialState;
     score := score initialState;
     lives := lives initialState;
     gameEnd := gameEnd initialState;
     gameWon := gameWon initialState;
     gameStarted := gameStarted initialState;
     isPaused := isPaused initialState;
     countdown := countdown initialState;
     countdownTime := countdownTime initialState;
     time := time initialState;
     gameTime := gameTime initialState;
     pipeSpawnQueue := pipeSpawnQueue0;
     originalPipeSpawnQueue := pipeSpawnQueue0;
     gameHistory := gameHistory initialState;
     currentRun := currentRun initialState;
     ghostBirds := ghostBirds initialState;
     gameCount := gameCount initialState;
     rngSeed := rngSeed initialState;
     shrinkActive := shrinkActive initialState;
     shrinkEndTime := shrinkEndTime initialState;
     slowDownActive := slowDownActive initialState;
     slowDownEndTime := slowDownEndTime initialState;
     slowDownMultiplier := slowDownMultiplier initialState;
     powerUpsSpawned := powerUpsSpawned initialState;
     powerUpsCollected := powerUpsCollected initialState;
     pipeSpawnIndex := pipeSpawnIndex initialState;
     lastCollisionTime := lastCollisionTime initialState;
     lastCollisionPipeId := lastCollisionPipeId initialState |}.

(** [scan(reduceState, seed)] over a finite prefix of the action stream: the
    state after the actions, folded left to right. *)
Definition run (actions : list Action) (s : State) : State :=
  fold_left reduceState actions s.

(** [Math.floor(stateSnapshot.gameTime / Constants.TICK_RATE_MS)]. *)
Definition ghostAnimationFrame (stateSnapshot : State) : Z :=
  gameTime stateSnapshot / Constants.TICK_RATE_MS.

(** ** Invariants of the fold *)

(** One recorded position per simulated frame, none before the first flap. *)
Definition TraceInSync (s : State) : Prop :=
  gameTime s = Constants.TICK_RATE_MS * Z.of_nat (length (currentRun s))
  /\ (gameStarted s = false -> currentRun s = []).

Definition LivesSound (s : State) : Prop :=
  0 <= lives s <= Constants.INITIAL_LIVES
  /\ (gameEnd s = false -> 1 <= lives s)
  /\ (gameWon s = true -> gameEnd s = true /\ 1 <= lives s)
  /\ 0 <= score s.

Definition SeedInRange (s : State) : Prop := 0 <= rngSeed s <= RNG.m - 2.

Definition ClockSound (s : State) : Prop :=
  0 <= countdown s <= 3
  /\ 0 <= countdownTime s <= time s
  /\ (isPaused s = true ->
      countdown s = 0 /\ gameStarted s = true /\ gameEnd s = false).

Definition BirdOnCanvas (s : State) : Prop :=
  Vec2.x (Bird.pos (bird s)) = Birb.INITIAL_X
  /\ Vec2.x (Bird.vel (bird s)) = 0%Q
  /\ (Bird.radius (bird s) == 7 \/ Bird.radius (bird s) == 21 # 5)%Q
  /\ (21 # 5 <= Vec2.y (Bird.pos (bird s))
      /\ Vec2.y (Bird.pos (bird s)) <= Viewport.CANVAS_HEIGHT - (21 # 5))%Q.

(** The number of power-ups of one type in a list. *)
Definition countType (t : PowerUpType) (l : list PowerUp.t) : nat :=
  length (filter (fun p => PowerUpType_eqb (PowerUp.type p) t) l).

Definition PowerUpsSound (s : State) : Prop :=
  (forall p, In p (powerUps s) -> PowerUp.collected p = false)
  /\ (countType shrink (powerUps s) <= 1)%nat
  /\ (countType slowDown (powerUps s) <= 1)%nat.

(** ** observable.ts: pipe generation *)





(** [ToInt32]: an integer reduced to the signed 32-bit range. *)
Definition toInt32 (z : Z) : Z := (z + 2 ^ 31) mod 2 ^ 32 - 2 ^ 31.

(** [a << count] on 32-bit integers. *)
Definition shiftLeft32 (a count : Z) : Z := toInt32 (toInt32 a * 2 ^ (count mod 32)).

(** [(latestGameState.gameCount << 20)
     + (latestGameState.pipeSpawnIndex + indexOffset)]. *)
Definition uniquePipeId (latestGameState : State) (indexOffset : Z) : Z :=
  shiftLeft32 (gameCount latestGameState) 20
  + (pipeSpawnIndex latestGameState + indexOffset).



(** The slow-down effect, when active, started no later than now, and the
    speed multiplier is between its minimum and 1. *)
Definition SlowDownSound (s : State) : Prop :=
  (slowDownActive s = true ->
   slowDownEndTime s - Constants.SLOW_DOWN_DURATION <= time s)
  /\ (Constants.SLOW_DOWN_MIN_MULTIPLIER <= slowDownMultiplier s
      /\ slowDownMultiplier s <= 1)%Q.

(** * Properties *)

(** ** Numbers and the random number generator *)

Section NumFacts.

Lemma ltb_lt (a b : Q) : Num.ltb a b = true <-> (a < b)%Q.
Proof.
  unfold Num.ltb. rewrite Qlt_alt. destruct (Qcompare a b); intuition congruence.
Qed.

Lemma leb_le (a b : Q) : Num.leb a b = true <-> (a <= b)%Q.
Proof.
  unfold Num.leb. rewrite Qle_alt. destruct (Qcompare a b); intuition congruence.
Qed.

(** Integers below [2^53] are doubles. *)
Lemma fl53_small (z : Z) : Z.abs z < 2 ^ 53 -> Num.fl53 z = z.
Proof.
  intros H. unfold Num.fl53. cbv zeta.
  destruct (Z.ltb_spec (Z.abs z) (2 ^ 53)); [reflexivity | lia].
Qed.

(** From [2^53] on a double is an even integer, and rounding stays there. *)
Lemma fl53_large (z : Z) :
  2 ^ 53 <= z -> 2 ^ 53 <= Num.fl53 z /\ Z.even (Num.fl53 z) = true.
Proof.
  intros H. unfold Num.fl53. cbv zeta.
  rewrite (Z.abs_eq z) by lia.
  destruct (Z.ltb_spec z (2 ^ 53)); [lia |].
  rewrite (Z.sgn_pos z) by lia. rewrite Z.mul_1_l.
  set (e := Z.log2 z - 52).
  assert (He : 1 <= e).
  { unfold e. assert (53 <= Z.log2 z); [| lia].
    apply Z.log2_le_pow2; lia. }
  assert (Hq : 2 ^ 52 <= z / 2 ^ e).
  { apply Z.div_le_lower_bound; [apply Z.pow_pos_nonneg; lia |].
    rewrite <- Z.pow_add_r by lia.
    replace (e + 52) with (Z.log2 z) by (unfold e; lia).
    apply Z.log2_spec; lia. }
  set (q := z / 2 ^ e) in *.
  set (q' := if z mod 2 ^ e <? 2 ^ (e - 1) then q
             else if 2 ^ (e - 1) <? z mod 2 ^ e then q + 1
             else if Z.even q then q else q + 1).
  assert (Hq' : q <= q').
  { unfold q'.
    repeat match goal with |- context [if ?b then _ else _] => destruct b end; lia. }
  assert (Hp : 2 ^ e = 2 * 2 ^ (e - 1)).
  { rewrite <- Z.pow_succ_r by lia. f_equal. lia. }
  assert (Hp1 : 0 < 2 ^ (e - 1)) by (apply Z.pow_pos_nonneg; lia).
  split.
  - rewrite Hp. nia.
  - rewrite Hp, !Z.even_mul. cbn. apply orb_true_r.
Qed.

Lemma fl53_nonneg (z : Z) : 0 <= z -> 0 <= Num.fl53 z.
Proof.
  intros H. destruct (Z.lt_ge_cases z (2 ^ 53)).
  - rewrite fl53_small; lia.
  - pose proof (fl53_large z); lia.
Qed.

End NumFacts.

Section RNGFacts.

Example hash_initial_seed : RNG.hash 123456789 = 231794736.
Proof. reflexivity. Qed.

(** On a non-negative seed the hash is a residue, and never the largest one:
    [m - 1] is odd, an odd double is below [2^53], and below [2^53] the
    congruence [a * seed + c = m - 1 (mod m)] has no solution. *)
Lemma hash_range (seed0 : Z) : 0 <= seed0 -> 0 <= RNG.hash seed0 <= RNG.m - 2.
Proof.
  intros Hs. unfold RNG.hash.
  set (p := Num.fl53 (RNG.a * seed0)).
  assert (Hp : 0 <= p) by (apply fl53_nonneg; unfold RNG.a; lia).
  set (t := Num.fl53 (p + RNG.c)).
  assert (Ht : 0 <= t) by (apply fl53_nonneg; unfold RNG.c; lia).
  rewrite Z.rem_mod_nonneg by (unfold RNG.m; lia).
  pose proof (Z.mod_pos_bound t RNG.m ltac:(unfold RNG.m; lia)) as Hb.
  assert (Hne : t mod RNG.m <> RNG.m - 1); [| lia].
  intros Heq.
  destruct (Z.lt_ge_cases (p + RNG.c) (2 ^ 53)) as [Hlt | Hge].
  - assert (Et : t = p + RNG.c) by (apply fl53_small; unfold RNG.c in *; lia).
    destruct (Z.lt_ge_cases (RNG.a * seed0) (2 ^ 53)) as [Hlt' | Hge'].
    + assert (Ep : p = RNG.a * seed0) by (apply fl53_small; unfold RNG.a in *; lia).
      rewrite Et, Ep in Heq.
      pose proof (Z.div_mod (RNG.a * seed0 + RNG.c) RNG.m ltac:(unfold RNG.m; lia)) as Hd.
      rewrite Heq in Hd.
      set (k := (RNG.a * seed0 + RNG.c) / RNG.m) in *.
      unfold RNG.a, RNG.c, RNG.m in *.
      change (2 ^ 53) with 9007199254740992 in *.
      lia.
    + pose proof (fl53_large _ Hge') as [Hbig _]. fold p in Hbig.
      unfold RNG.c in *. lia.
  - pose proof (fl53_large _ Hge) as [_ Hev]. fold t in Hev.
    pose proof (Z.div_mod t RNG.m ltac:(unfold RNG.m; lia)) as Hd.
    rewrite Heq in Hd. rewrite Hd in Hev.
    unfold RNG.m in Hev.
    rewrite Z.even_add, Z.even_mul in Hev. cbn in Hev. discriminate.
Qed.

Lemma scale01_unit (h : Z) :
  0 <= h <= RNG.m - 2 -> (0 <= RNG.scale01 h /\ RNG.scale01 h < 1)%Q.
Proof.
  intros [H0 H1]. unfold RNG.scale01.
  assert (Hm : (0 < inject_Z (RNG.m - 1))%Q) by reflexivity.
  split.
  - apply Qle_shift_div_l; [exact Hm |]. rewrite Qmult_0_l.
    change 0%Q with (inject_Z 0). rewrite <- Zle_Qle. exact H0.
  - apply Qlt_shift_div_r; [exact Hm |]. rewrite Qmult_1_l.
    rewrite <- Zlt_Qlt. lia.
Qed.

Lemma affine_range (u lo hi : Q) :
  (0 <= u -> u < 1 -> lo < hi ->
   lo <= u * (hi - lo) + lo /\ u * (hi - lo) + lo < hi)%Q.
Proof. intros. split; nra. Qed.

(** On the seeds the game uses (the initial constant and the hashes that
    follow it, all within [0 .. 2^53]) and every [min < max], [randomBetween]
    returns a value in the half-open interval [[min, max)], strictly below
    [max], together with the hash of the seed; and equal inputs give the same
    value and the same next seed. *)
Theorem randomBetween_range_nonneg_seed (seed0 : Z) (minValue maxValue : Q) :
  0 <= seed0 <= 2 ^ 53 ->
  (minValue < maxValue)%Q ->
  (minValue <= value (randomBetween seed0 minValue maxValue)
   /\ value (randomBetween seed0 minValue maxValue) < maxValue)%Q
  /\ seed (randomBetween seed0 minValue maxValue) = RNG.hash seed0
  /\ (forall minValue' maxValue' : Q,
        (minValue' == minValue)%Q -> (maxValue' == maxValue)%Q ->
        (value (randomBetween seed0 minValue' maxValue')
         == value (randomBetween seed0 minValue maxValue))%Q
        /\ seed (randomBetween seed0 minValue' maxValue')
           = seed (randomBetween seed0 minValue maxValue)).
Proof.
  intros Hs Hlt. unfold randomBetween; cbn [value seed].
  destruct (scale01_unit (RNG.hash seed0) (hash_range seed0 (proj1 Hs))) as [H0 H1].
  split; [apply affine_range; assumption |].
  split; [reflexivity |].
  intros minValue' maxValue' Emin Emax. split; [| reflexivity].
  rewrite Emin, Emax. reflexivity.
Qed.

Lemma randomBetween_range_nonneg_seed_witness :
  (4 <= value (randomBetween 123456789 4 7)
   /\ value (randomBetween 123456789 4 7) < 7)%Q.
Proof.
  apply (randomBetween_range_nonneg_seed 123456789 4 7).
  - vm_compute. split; discriminate.
  - reflexivity.
Defined.

(** The range does not hold for every integer seed. *)
Lemma randomBetween_negative_seed_below_min :
  ~ (forall (seed0 : Z) (minValue maxValue : Q),
        (minValue < maxValue)%Q ->
        (minValue <= value (randomBetween seed0 minValue maxValue)
         /\ value (randomBetween seed0 minValue maxValue) < maxValue)%Q).
Proof.
  intros H. destruct (H (-1) 0%Q 1%Q ltac:(reflexivity)) as [Hlo _].
  vm_compute in Hlo. apply Hlo. reflexivity.
Qed.

(** C6 (the code at the failing input): on the seed [-1] the remainder keeps
    the sign of the dividend, the hash is negative, and
    [randomBetween (-1) 0 1] returns a value below [min = 0], outside
    [[0, 1)]. *)
Theorem randomBetween_minus_one :
  seed (randomBetween (-1) 0 1) = -1103502900
  /\ (value (randomBetween (-1) 0 1) == -1103502900 # 2147483647)%Q
  /\ (value (randomBetween (-1) 0 1) < 0)%Q.
Proof. repeat split. Qed.

End RNGFacts.

(** ** The branches of [Tick] *)

Section TickBranches.

Variable s : State.

Lemma Tick_idle : idle s = true -> Tick_apply s = s.
Proof. unfold idle, Tick_apply. intros ->. reflexivity. Qed.

Lemma Tick_countdown :
  idle s = false -> 0 < countdown s -> Tick_apply s = countdownState s.
Proof.
  unfold idle, Tick_apply. intros -> H.
  apply Z.ltb_lt in H. rewrite H. reflexivity.
Qed.

Lemma simulating_spec :
  simulating s = true <-> idle s = false /\ countdown s <= 0.
Proof.
  unfold simulating. rewrite andb_true_iff, negb_true_iff, Z.leb_le. tauto.
Qed.

Lemma Tick_simulating :
  simulating s = true ->
  Tick_apply s = if hasPhysicalCollision s then collisionState s else baseState s.
Proof.
  rewrite simulating_spec. intros [Hi Hc].
  unfold idle in Hi. unfold Tick_apply. rewrite Hi.
  destruct (Z.ltb_spec 0 (countdown s)); [lia | reflexivity].
Qed.

Lemma Tick_not_simulating :
  simulating s = false -> Tick_apply s = s \/ Tick_apply s = countdownState s.
Proof.
  unfold simulating. intros H.
  destruct (idle s) eqn:Hi.
  - left. apply Tick_idle, Hi.
  - right. apply Tick_countdown; [exact Hi |].
    cbn in H. apply Z.leb_gt in H. exact H.
Qed.

End TickBranches.

(** ** Pause and the resume countdown *)

Section PauseCountdown.

(** While the countdown is shown a tick moves the clock and the countdown
    only: the game clock stands still. *)
Lemma Tick_gameTime (s : State) :
  gameTime (Tick_apply s)
  = if simulating s then gameTime s + Constants.TICK_RATE_MS else gameTime s.
Proof.
  destruct (simulating s) eqn:H.
  - rewrite Tick_simulating by exact H.
    destruct (hasPhysicalCollision s); reflexivity.
  - destruct (Tick_not_simulating s H) as [-> | ->]; reflexivity.
Qed.

Lemma countdown_freezes_gameTime (s : State) :
  0 < countdown s -> gameTime (Tick_apply s) = gameTime s.
Proof.
  intros H. rewrite Tick_gameTime.
  unfold simulating. destruct (Z.leb_spec (countdown s) 0); [lia |].
  rewrite andb_false_r. reflexivity.
Qed.

(** C7: from a started, unended run at time 10000, [Pause] gives
    [isPaused = true] and [countdown = 0]; [Pause] again gives
    [isPaused = false], [countdown = 3], [countdownTime = 10000]; a tick of
    that state with the time set to 11000, 12000, 13000 gives countdown 2,
    1, 0, each leaving [gameTime] where it was (as every tick with a
    positive countdown does); the tick after the countdown reached 0 raises
    [gameTime] above zero. *)
Theorem pause_countdown_sequence :
  (isPaused pausedState = true /\ countdown pausedState = 0)
  /\ (isPaused unpausedState = false
      /\ countdown unpausedState = 3
      /\ countdownTime unpausedState = 10000)
  /\ (countdown (Tick_apply unpausedState) = 3
      /\ gameTime (Tick_apply unpausedState) = 0)
  /\ (countdown (Tick_apply (withTime unpausedState 11000)) = 2
      /\ gameTime (Tick_apply (withTime unpausedState 11000)) = 0)
  /\ (countdown (Tick_apply (withTime unpausedState 12000)) = 1
      /\ gameTime (Tick_apply (withTime unpausedState 12000)) = 0)
  /\ (countdown (Tick_apply (withTime unpausedState 13000)) = 0
      /\ gameTime (Tick_apply (withTime unpausedState 13000)) = 0)
  /\ (forall s : State,
        gameTime (Tick_apply s)
        = if simulating s then gameTime s + Constants.TICK_RATE_MS else gameTime s)
  /\ simulating unpausedState = false
  /\ 0 < gameTime (Tick_apply (Tick_apply (withTime unpausedState 13000))).
Proof.
  repeat split; try reflexivity.
  apply Tick_gameTime.
Qed.

End PauseCountdown.

(** ** Restart *)

Section RestartFacts.

Variable s : State.

(** C8: [Restart] appends exactly the entry [{birdPositions: currentRun,
    timestamp: time}] to [gameHistory] when the trace is non-empty and
    leaves [gameHistory] alone when it is empty; [gameCount] grows by one;
    both obstacle queues become the input's [originalPipeSpawnQueue]; every
    other field is the one of [initialState]. *)
Theorem Restart_preserves :
  (currentRun s <> [] -> gameHistory (Restart_apply s)
   = gameHistory s
       ++ [{| GameHistory.birdPositions := currentRun s;
              GameHistory.timestamp := time s |}])
  /\ (currentRun s = [] -> gameHistory (Restart_apply s) = gameHistory s)
  /\ gameCount (Restart_apply s) = gameCount s + 1
  /\ pipeSpawnQueue (Restart_apply s) = originalPipeSpawnQueue s
  /\ originalPipeSpawnQueue (Restart_apply s) = originalPipeSpawnQueue s
  /\ Restart_apply s
     = {| bird := bird initialState;
          pipes := pipes initialState;
          powerUps := powerUps initialState;
          score := score initialState;
          lives := lives initialState;
          gameEnd := gameEnd initialState;
          gameWon := gameWon initialState;
          gameStarted := gameStarted initialState;
          isPaused := isPaused initialState;
          countdown := countdown initialState;
          countdownTime := countdownTime initialState;
          time := time initialState;
          gameTime := gameTime initialState;
          pipeSpawnQueue := pipeSpawnQueue (Restart_apply s);
          originalPipeSpawnQueue := originalPipeSpawnQueue (Restart_apply s);
          gameHistory := gameHistory (Restart_apply s);
          currentRun := currentRun initialState;
          ghostBirds := ghostBirds initialState;
          gameCount := gameCount (Restart_apply s);
          rngSeed := rngSeed initialState;
          shrinkActive := shrinkActive initialState;
          shrinkEndTime := shrinkEndTime initialState;
          slowDownActive := slowDownActive initialState;
          slowDownEndTime := slowDownEndTime initialState;
          slowDownMultiplier := slowDownMultiplier initialState;
          powerUpsSpawned := powerUpsSpawned initialState;
          powerUpsCollected := powerUpsCollected initialState;
          pipeSpawnIndex := pipeSpawnIndex initialState;
          lastCollisionTime := lastCollisionTime initialState;
          lastCollisionPipeId := lastCollisionPipeId initialState |}.
Proof.
  unfold Restart_apply; cbn [gameHistory gameCount pipeSpawnQueue originalPipeSpawnQueue].
  repeat split.
  - destruct (currentRun s) as [| v run]; [congruence | reflexivity].
  - intros ->. reflexivity.
Qed.

End RestartFacts.

(** An entry with a recorded trace is what [Restart] appends. *)
Lemma Restart_preserves_witness :
  gameHistory (Restart_apply wonRun)
  = gameHistory wonRun
      ++ [{| GameHistory.birdPositions := currentRun wonRun;
             GameHistory.timestamp := time wonRun |}].
Proof.
  apply (proj1 (Restart_preserves wonRun)). vm_compute. discriminate.
Defined.

(** ** Scoring *)

Section Score.

Variable b : Bird.t.

Lemma markPassed_passed (pipe : Pipe.t) :
  Pipe.passed (markPassed b pipe) = Pipe.passed pipe || justPassed b pipe.
Proof.
  unfold markPassed, justPassed.
  destruct (Pipe.passed pipe) eqn:E; cbn [negb andb orb]; [exact E |].
  destruct (Num.ltb _ _); [reflexivity | exact E].
Qed.

Lemma markPassed_keeps (pipe : Pipe.t) :
  Pipe.passed pipe = true -> markPassed b pipe = pipe.
Proof. unfold markPassed. intros ->. reflexivity. Qed.

(** The indexed filter of [updateScore], started anywhere in the array,
    counts the flips of the rest of the array. *)
Lemma newlyPassed_flips (pre l : list Pipe.t) :
  length
    (filteri
       (fun pipe index =>
          match nth_error (pre ++ l) index with
          | Some before => Pipe.passed pipe && negb (Pipe.passed before)
          | None => false
          end)
       (length pre) (map (markPassed b) l))
  = flips l (map (markPassed b) l).
Proof.
  revert pre. induction l as [| a l IH]; intros pre; [reflexivity |].
  cbn [map filteri]. unfold flips. cbn [combine filter fst snd].
  rewrite nth_error_app2 by lia. rewrite Nat.sub_diag. cbn [nth_error].
  specialize (IH (pre ++ [a])).
  rewrite <- app_assoc, length_app in IH. cbn [app length] in IH.
  rewrite Nat.add_1_r in IH. fold (flips l (map (markPassed b) l)).
  rewrite (andb_comm (negb (Pipe.passed a))).
  destruct (Pipe.passed (markPassed b a) && negb (Pipe.passed a));
    cbn [length]; rewrite IH; reflexivity.
Qed.

Lemma flips_justPassed (l : list Pipe.t) :
  flips l (map (markPassed b) l) = length (filter (justPassed b) l).
Proof.
  unfold flips. induction l as [| a l IH]; [reflexivity |].
  cbn [map combine filter fst snd]. rewrite markPassed_passed.
  assert (E : negb (Pipe.passed a) && (Pipe.passed a || justPassed b a) = justPassed b a).
  { unfold justPassed. destruct (Pipe.passed a); reflexivity. }
  rewrite E. destruct (justPassed b a); cbn [length]; rewrite IH; reflexivity.
Qed.

Lemma updateScore_flips (l : list Pipe.t) (c : Z) :
  Scored.pipes (updateScore b l c) = map (markPassed b) l
  /\ Scored.score (updateScore b l c)
     = c + Z.of_nat (flips l (Scored.pipes (updateScore b l c))).
Proof.
  unfold updateScore; cbn [Scored.pipes Scored.score]. split; [reflexivity |].
  rewrite <- (newlyPassed_flips [] l). reflexivity.
Qed.

End Score.

(** Between a list and itself no flag flips. *)
Lemma flips_same (l : list Pipe.t) : flips l l = 0%nat.
Proof.
  unfold flips. induction l as [| a l IH]; [reflexivity |].
  cbn [combine filter fst snd]. destruct (Pipe.passed a); exact IH.
Qed.

(** C5: the score never decreases over a tick.  In a tick that runs the
    simulation it grows by exactly the number of pipes whose [passed] flag is
    false in the moved, on-screen pipe list and true in the output pipe list
    (the two lists have one length); in any other tick pipes and score are
    returned as they were, so no flag flips.  The flips are the pipes not yet marked that the
    bird is past, so a pipe already marked [passed] is returned unchanged and
    adds nothing. *)
Theorem score_monotone (s : State) :
  score s <= score (Tick_apply s)
  /\ (simulating s = true ->
      length (pipes (Tick_apply s)) = length (cleanedPipes s)
      /\ score (Tick_apply s)
         = score s + Z.of_nat (flips (cleanedPipes s) (pipes (Tick_apply s))))
  /\ (simulating s = false ->
      pipes (Tick_apply s) = pipes s
      /\ flips (pipes s) (pipes (Tick_apply s)) = 0%nat
      /\ score (Tick_apply s) = score s)
  /\ (forall (b : Bird.t) (l : list Pipe.t) (c : Z),
        flips l (Scored.pipes (updateScore b l c)) = length (filter (justPassed b) l)
        /\ (forall pipe, In pipe l -> Pipe.passed pipe = true ->
            justPassed b pipe = false /\ markPassed b pipe = pipe)).
Proof.
  assert (Hsim : simulating s = true ->
      length (pipes (Tick_apply s)) = length (cleanedPipes s)
      /\ score (Tick_apply s)
         = score s + Z.of_nat (flips (cleanedPipes s) (pipes (Tick_apply s)))).
  { intros H. rewrite Tick_simulating by exact H.
    destruct (updateScore_flips (updatedBird s) (cleanedPipes s) (score s)) as [Hp Hs].
    assert (Epipes : pipes (if hasPhysicalCollision s then collisionState s else baseState s)
                     = scoredPipes s) by (destruct (hasPhysicalCollision s); reflexivity).
    assert (Escore : score (if hasPhysicalCollision s then collisionState s else baseState s)
                     = newScore s) by (destruct (hasPhysicalCollision s); reflexivity).
    rewrite Epipes, Escore. unfold scoredPipes, newScore, scoreResult.
    split; [rewrite Hp; apply length_map | exact Hs]. }
  assert (Hnot : simulating s = false ->
      pipes (Tick_apply s) = pipes s
      /\ flips (pipes s) (pipes (Tick_apply s)) = 0%nat
      /\ score (Tick_apply s) = score s).
  { intros H.
    destruct (Tick_not_simulating s H) as [-> | ->];
      (split; [reflexivity | split; [apply flips_same | reflexivity]]). }
  split; [| split; [exact Hsim | split; [exact Hnot |]]].
  - destruct (simulating s) eqn:H.
    + destruct (Hsim eq_refl) as [_ ->]. lia.
    + destruct (Hnot eq_refl) as (_ & _ & ->). lia.
  - intros b l c. split.
    + apply flips_justPassed.
    + intros pipe _ Hp. split.
      * unfold justPassed. rewrite Hp. reflexivity.
      * apply markPassed_keeps, Hp.
Qed.

Lemma score_monotone_witness :
  score (Tick_apply scoringState)
  = score scoringState
    + Z.of_nat (flips (cleanedPipes scoringState) (pipes (Tick_apply scoringState))).
Proof.
  apply (proj1 (proj2 (score_monotone scoringState))). reflexivity.
Defined.

Example score_once :
  score (Tick_apply scoringState) = 1
  /\ score (Tick_apply (Tick_apply scoringState)) = 1.
Proof. split; reflexivity. Qed.

(** ** Ghost replay *)

Section Ghosts.

Lemma filter_map_flat_map {A B : Type} (f : A -> B) (keep : B -> bool) (l : list A) :
  filter keep (map f l) = flat_map (fun a => filter keep [f a]) l.
Proof.
  induction l as [| a l IH]; [reflexivity |].
  cbn [map filter flat_map]. rewrite IH.
  destruct (keep (f a)); reflexivity.
Qed.

Lemma ghostOf_inside (frame : Z) (h : GameHistory.t) :
  0 <= frame < Z.of_nat (length (GameHistory.birdPositions h)) ->
  exists position,
    nth_error (GameHistory.birdPositions h) (Z.to_nat frame) = Some position
    /\ ghostOf frame h = [GhostAt position].
Proof.
  intros [H0 H1]. unfold ghostOf, positionAtFrame, readAt.
  destruct (Z.ltb_spec frame (Z.of_nat (length (GameHistory.birdPositions h)))); [| lia].
  destruct (Z.ltb_spec frame 0); [lia |].
  destruct (nth_error (GameHistory.birdPositions h) (Z.to_nat frame)) as [position |] eqn:E.
  - exists position. split; reflexivity.
  - apply nth_error_None in E. lia.
Qed.

Lemma ghostOf_outside (frame : Z) (h : GameHistory.t) :
  Z.of_nat (length (GameHistory.birdPositions h)) <= frame -> ghostOf frame h = [].
Proof.
  intros H. unfold ghostOf, positionAtFrame.
  destruct (Z.ltb_spec frame (Z.of_nat (length (GameHistory.birdPositions h)))); [lia |].
  reflexivity.
Qed.

(** C9: once the game has started, the ghosts are the contributions of the
    history entries, in order; an entry with N recorded positions contributes
    exactly its position at the frame index when the index is in 0..N-1, and
    nothing at all when the index is N or more; before the game has started,
    or with an empty history, there are no ghosts. *)
Theorem ghost_replay_boundary :
  (forall history frame st,
      gameStarted st = true ->
      calculateGhostPositions history frame st = flat_map (ghostOf frame) history)
  /\ (forall frame h,
        0 <= frame < Z.of_nat (length (GameHistory.birdPositions h)) ->
        exists position,
          nth_error (GameHistory.birdPositions h) (Z.to_nat frame) = Some position
          /\ ghostOf frame h = [GhostAt position])
  /\ (forall frame h,
        Z.of_nat (length (GameHistory.birdPositions h)) <= frame -> ghostOf frame h = [])
  /\ (forall history frame st,
        gameStarted st = false \/ history = [] ->
        calculateGhostPositions history frame st = []).
Proof.
  split; [| split; [exact ghostOf_inside | split; [exact ghostOf_outside |]]].
  - intros history frame st Hs. unfold calculateGhostPositions. rewrite Hs.
    destruct history as [| h history]; [reflexivity |].
    cbn [negb orb length Nat.eqb]. apply filter_map_flat_map.
  - intros history frame st [Hs | ->]; unfold calculateGhostPositions.
    + rewrite Hs. reflexivity.
    + cbn. destruct (gameStarted st); reflexivity.
Qed.

Lemma ghost_replay_boundary_witness :
  calculateGhostPositions mockHistory 2 runningAt10000
  = flat_map (ghostOf 2) mockHistory.
Proof.
  apply (proj1 ghost_replay_boundary mockHistory 2 runningAt10000). reflexivity.
Defined.

Example ghost_frames :
  calculateGhostPositions mockHistory 0 runningAt10000
  = [GhostAt {| Vec2.x := 10; Vec2.y := 10 |}]
  /\ calculateGhostPositions mockHistory 2 runningAt10000
     = [GhostAt {| Vec2.x := 12; Vec2.y := 15 |}]
  /\ calculateGhostPositions mockHistory 3 runningAt10000 = []
  /\ calculateGhostPositions mockHistory 0 initialState = [].
Proof. repeat split. Qed.

End Ghosts.

(** ** What a tick does to lives, cooldown bookkeeping, end flags and seed *)

Section TickOutcome.

Variable s : State.

Lemma no_contact_no_damage : hasPhysicalCollision s = false -> hasDamageCollision s = false.
Proof. unfold hasDamageCollision. intros ->. reflexivity. Qed.

Lemma Tick_lives :
  lives (Tick_apply s)
  = if simulating s && hasDamageCollision s then lives s - 1 else lives s.
Proof.
  destruct (simulating s) eqn:H; cbn [andb].
  - rewrite Tick_simulating by exact H.
    destruct (hasPhysicalCollision s) eqn:Hc.
    + reflexivity.
    + rewrite no_contact_no_damage by exact Hc. reflexivity.
  - destruct (Tick_not_simulating s H) as [-> | ->]; reflexivity.
Qed.

Lemma Tick_lastCollision :
  lastCollisionTime (Tick_apply s)
  = (if simulating s && hasDamageCollision s then newTime s else lastCollisionTime s)
  /\ lastCollisionPipeId (Tick_apply s)
     = (if simulating s && hasDamageCollision s
        then match collidedPipe s with Some pipe => Pipe.id pipe | None => -1 end
        else lastCollisionPipeId s).
Proof.
  destruct (simulating s) eqn:H; cbn [andb].
  - rewrite Tick_simulating by exact H.
    destruct (hasPhysicalCollision s) eqn:Hc.
    + split; reflexivity.
    + rewrite no_contact_no_damage by exact Hc. split; reflexivity.
  - destruct (Tick_not_simulating s H) as [-> | ->]; split; reflexivity.
Qed.

Lemma Tick_gameEnd :
  simulating s = true ->
  gameEnd (Tick_apply s)
  = allPipesCleared s || (hasPhysicalCollision s && (lives (Tick_apply s) <=? 0))
  /\ gameWon (Tick_apply s)
     = allPipesCleared s && (negb (hasPhysicalCollision s) || (0 <? lives (Tick_apply s))).
Proof.
  intros H. rewrite Tick_simulating by exact H.
  destruct (hasPhysicalCollision s); cbn [andb orb negb].
  - split; reflexivity.
  - rewrite orb_false_r, andb_true_r. split; reflexivity.
Qed.

(** The seed a tick leaves behind: hashed once by the bounce of a physical
    collision, and otherwise the seed it started from, whatever was spawned. *)
Lemma Tick_rngSeed :
  rngSeed (Tick_apply s)
  = if simulating s && hasPhysicalCollision s then RNG.hash (rngSeed s) else rngSeed s.
Proof.
  destruct (simulating s) eqn:H; cbn [andb].
  - rewrite Tick_simulating by exact H.
    destruct (hasPhysicalCollision s).
    + cbn [collisionState rngSeed]. unfold bounceComputation, calculateBounce.
      destruct (boundaryCollision s); [reflexivity |].
      destruct (find _ _); reflexivity.
    + reflexivity.
  - destruct (Tick_not_simulating s H) as [-> | ->]; reflexivity.
Qed.

(** Inside the cooldown window a hit on the pipe that damaged last is no
    damage collision. *)
Lemma same_pipe_no_damage :
  hitsOnly (lastCollisionPipeId s) s = true ->
  newTime s < lastCollisionTime s + Constants.COLLISION_COOLDOWN_MS ->
  hasDamageCollision s = false.
Proof.
  unfold hitsOnly, hasDamageCollision, hasPhysicalCollision, pipeCollision,
    canTakeDamage, isDifferentPipe, timeSinceLastCollision.
  intros Hhit Htime.
  destruct (collidedPipe s) as [pipe |].
  - rewrite Hhit. cbn [negb orb andb].
    destruct (Z.leb_spec Constants.COLLISION_COOLDOWN_MS (newTime s - lastCollisionTime s));
      [lia | reflexivity].
  - apply negb_true_iff in Hhit. rewrite Hhit. reflexivity.
Qed.

(** A boundary hit with no pipe involved always passes the damage gate. *)
Lemma boundary_only_is_damage :
  boundaryCollision s = true -> collidedPipe s = None -> hasDamageCollision s = true.
Proof.
  unfold hasDamageCollision, hasPhysicalCollision, isDifferentPipe.
  intros -> ->. rewrite !orb_true_r. reflexivity.
Qed.

Lemma no_pipes_no_scoredPipes : pipes s = [] -> scoredPipes s = [].
Proof.
  intros H. unfold scoredPipes, scoreResult, updateScore, cleanedPipes, movedPipes.
  rewrite H. reflexivity.
Qed.

End TickOutcome.

(** ** Power-up spawning and the seed *)

(** C1 (the code at the failing input): a tick changes the seed only through
    the bounce of a physical collision.  Ten seconds into a run, with nothing
    near the bird, the tick spawns a shrink power-up and returns the seed it
    was given, which is not its LCG successor. *)
Theorem spawn_keeps_seed :
  (forall s : State,
      rngSeed (Tick_apply s)
      = if simulating s && hasPhysicalCollision s
        then RNG.hash (rngSeed s) else rngSeed s)
  /\ simulating spawnState = true
  /\ SpawnDecision.shouldSpawnShrink (spawnResult spawnState) = true
  /\ map PowerUp.type (powerUps spawnState) = []
  /\ map PowerUp.type (powerUps (Tick_apply spawnState)) = [shrink]
  /\ powerUpsSpawned (Tick_apply spawnState) = powerUpsSpawned spawnState + 1
  /\ rngSeed (Tick_apply spawnState) = rngSeed spawnState
  /\ rngSeed spawnState <> RNG.hash (rngSeed spawnState).
Proof.
  split; [exact Tick_rngSeed |].
  vm_compute. repeat split; congruence.
Qed.

(** ** The damage cooldown *)

(** C2: from a state whose last damage was registered at time T against pipe
    P, over any run of ticks that touch nothing but pipe P and happen before
    T + COLLISION_COOLDOWN_MS, lives are not decremented and the cooldown
    bookkeeping stays (T, P); and there is a state inside the window in which
    a collision with a different pipe does decrement lives. *)
Theorem cooldown_invariant :
  (forall (s : State) (n : nat),
      samePipeRun (lastCollisionTime s) (lastCollisionPipeId s) n s = true ->
      lives (ticks n s) = lives s
      /\ lastCollisionTime (ticks n s) = lastCollisionTime s
      /\ lastCollisionPipeId (ticks n s) = lastCollisionPipeId s)
  /\ (exists (s : State) (pipeId : Z),
        simulating s = true
        /\ option_map Pipe.id (collidedPipe s) = Some pipeId
        /\ pipeId <> lastCollisionPipeId s
        /\ newTime s < lastCollisionTime s + Constants.COLLISION_COOLDOWN_MS
        /\ lives (Tick_apply s) = lives s - 1).
Proof.
  split.
  - intros s n. revert s. induction n as [| n IH]; intros s H; [repeat split |].
    cbn [samePipeRun] in H. apply andb_true_iff in H as [H Hrun].
    apply andb_true_iff in H as [Hhit Htime]. apply Z.ltb_lt in Htime.
    pose proof (same_pipe_no_damage s Hhit Htime) as Hno.
    pose proof (Tick_lives s) as Hl.
    destruct (Tick_lastCollision s) as [Ht Hp].
    rewrite Hno, andb_false_r in Hl, Ht, Hp.
    cbn [ticks]. rewrite <- Ht, <- Hp in Hrun.
    destruct (IH _ Hrun) as (-> & -> & ->). auto.
  - exists (hitOtherPipe 3), 1. vm_compute. repeat split; congruence.
Qed.

Lemma cooldown_invariant_witness :
  lives (ticks 5 (hitSamePipe 3)) = lives (hitSamePipe 3).
Proof.
  apply (proj1 cooldown_invariant (hitSamePipe 3) 5%nat). vm_compute. reflexivity.
Defined.

(** C3: in a tick that runs the simulation, a bird that overlaps the top or
    bottom edge and no pipe takes damage whatever the time since the last
    damage and whatever the last damaging pipe: with no collided pipe the
    different-pipe test passes, the collision is a damage collision, lives
    drop by one, and the bookkeeping becomes (time of this
    tick, -1). *)
Theorem boundary_bypasses_cooldown (s : State) :
  simulating s = true ->
  boundaryCollision s = true ->
  collidedPipe s = None ->
  isDifferentPipe s = true
  /\ hasDamageCollision s = true
  /\ lives (Tick_apply s) = lives s - 1
  /\ lastCollisionTime (Tick_apply s) = newTime s
  /\ lastCollisionPipeId (Tick_apply s) = -1.
Proof.
  intros Hsim Hb Hp.
  pose proof (boundary_only_is_damage s Hb Hp) as Hd.
  pose proof (Tick_lives s) as Hl.
  destruct (Tick_lastCollision s) as [Ht Hi].
  rewrite Hsim, Hd in Hl, Ht, Hi. cbn [andb] in Hl, Ht, Hi.
  rewrite Hp in Hi. unfold isDifferentPipe. rewrite Hp. auto.
Qed.

Lemma boundary_bypasses_cooldown_witness :
  newTime hitCeiling - lastCollisionTime hitCeiling < Constants.COLLISION_COOLDOWN_MS
  /\ lastCollisionPipeId hitCeiling = -1
  /\ lives (Tick_apply hitCeiling) = lives hitCeiling - 1.
Proof.
  split; [reflexivity | split; [reflexivity |]].
  apply (boundary_bypasses_cooldown hitCeiling); reflexivity.
Defined.

(** ** Game over and victory *)

(** C4 (as amended): in a tick that runs the simulation from [lives = 1], a
    damage collision (a physical collision with the cooldown elapsed or with
    another pipe than the last damaging one) gives [lives = 0] and
    [gameEnd = true]; a physical collision that is no damage collision leaves
    [lives = 1]. *)
Theorem game_over_on_damage (s : State) :
  simulating s = true ->
  lives s = 1 ->
  (hasDamageCollision s = true ->
   lives (Tick_apply s) = 0 /\ gameEnd (Tick_apply s) = true)
  /\ (hasDamageCollision s = false -> lives (Tick_apply s) = 1).
Proof.
  intros Hsim Hl. pose proof (Tick_lives s) as Hlives.
  rewrite Hsim, Hl in Hlives. cbn [andb] in Hlives.
  split; intros Hd; rewrite Hd in Hlives; [| exact Hlives].
  split; [exact Hlives |].
  destruct (Tick_gameEnd s Hsim) as [-> _]. rewrite Hlives.
  unfold hasDamageCollision in Hd. apply andb_true_iff in Hd as [-> _].
  apply orb_true_r.
Qed.

Lemma game_over_on_damage_witness :
  lives (Tick_apply (hitOtherPipe 1)) = 0 /\ gameEnd (Tick_apply (hitOtherPipe 1)) = true.
Proof.
  apply (game_over_on_damage (hitOtherPipe 1)); reflexivity.
Defined.

(** C4 (counterexample): one tick after the hit that took the run to its
    last life the bird is still inside the same pipe; the tick bounces it,
    takes no life and does not end the game. *)
Lemma physical_collision_not_always_fatal :
  ~ (forall s : State,
        simulating s = true ->
        lives s = 1 ->
        hasPhysicalCollision s = true ->
        lives (Tick_apply s) = 0 /\ gameEnd (Tick_apply s) = true).
Proof.
  intros H.
  destruct (H afterFirstHit) as [Hl _]; try reflexivity.
  vm_compute in Hl. discriminate.
Qed.

Example afterFirstHit_survives :
  lives afterFirstHit = 1
  /\ hasPhysicalCollision afterFirstHit = true
  /\ lives (Tick_apply afterFirstHit) = 1
  /\ gameEnd (Tick_apply afterFirstHit) = false.
Proof. repeat split. Qed.

(** C10: a tick that runs the simulation with the whole schedule consumed
    ([pipeSpawnIndex] at or past the length of [pipeSpawnQueue], which an
    empty queue always is), no pipe on screen and no collision that takes the
    last life, ends the run as won. *)
Theorem empty_schedule_victory (s : State) :
  simulating s = true ->
  Z.of_nat (length (pipeSpawnQueue s)) <= pipeSpawnIndex s ->
  pipes s = [] ->
  (hasDamageCollision s = true -> 1 < lives s) ->
  gameEnd (Tick_apply s) = true /\ gameWon (Tick_apply s) = true.
Proof.
  intros Hsim Hq Hp Hsafe.
  assert (Hclear : allPipesCleared s = true).
  { unfold allPipesCleared. rewrite (no_pipes_no_scoredPipes s Hp).
    apply andb_true_iff. split; [apply Z.leb_le; exact Hq | reflexivity]. }
  destruct (Tick_gameEnd s Hsim) as [-> ->]. rewrite Hclear. cbn [andb orb].
  split; [reflexivity |].
  destruct (hasPhysicalCollision s) eqn:Hc; [| reflexivity]. cbn [negb orb].
  assert (Hd : hasDamageCollision s = true).
  { unfold hasDamageCollision, isDifferentPipe, collidedPipe.
    rewrite Hc, (no_pipes_no_scoredPipes s Hp). cbn [find]. apply orb_true_r. }
  rewrite Tick_lives, Hsim, Hd. cbn [andb]. apply Z.ltb_lt. specialize (Hsafe Hd). lia.
Qed.

Lemma empty_schedule_victory_witness :
  gameEnd (Tick_apply emptyScheduleAtCeiling) = true
  /\ gameWon (Tick_apply emptyScheduleAtCeiling) = true.
Proof.
  apply (empty_schedule_victory emptyScheduleAtCeiling).
  - reflexivity.
  - cbn. lia.
  - reflexivity.
  - intros _. cbn. lia.
Defined.

(** * Further properties of the code *)

(** ** clamp and the bird's physics *)

Ltac clamp_cases v lo hi :=
  unfold clamp;
  destruct (Q.max_spec lo (Qmin hi v)) as [[? ?] | [? ?]];
  destruct (Q.min_spec hi v) as [[? ?] | [? ?]].

Section ClampFacts.

Lemma clamp_bounds (v lo hi : Q) :
  (lo <= hi)%Q ->
  (lo <= clamp v lo hi /\ clamp v lo hi <= hi)%Q
  /\ ((lo <= v /\ v <= hi)%Q -> (clamp v lo hi == v)%Q)
  /\ ((v <= lo)%Q -> (clamp v lo hi == lo)%Q)
  /\ ((hi <= v)%Q -> (clamp v lo hi == hi)%Q).
Proof.
  intros H. split; [| split; [| split]].
  - clamp_cases v lo hi; split; lra.
  - intros [H1 H2]. clamp_cases v lo hi; lra.
  - intros H1. clamp_cases v lo hi; lra.
  - intros H1. clamp_cases v lo hi; lra.
Qed.

Lemma clamp_inverted (v lo hi : Q) : (hi < lo)%Q -> (clamp v lo hi == lo)%Q.
Proof. intros H. clamp_cases v lo hi; lra. Qed.

End ClampFacts.

Section BirdPhysics.

Variable b : Bird.t.

Lemma updateBirdPosition_frame :
  Vec2.x (Bird.pos (updateBirdPosition b)) = Vec2.x (Bird.pos b)
  /\ Vec2.x (Bird.vel (updateBirdPosition b)) = Vec2.x (Bird.vel b)
  /\ Bird.radius (updateBirdPosition b) = Bird.radius b
  /\ Vec2.y (Bird.vel (updateBirdPosition b)) = (Vec2.y (Bird.vel b) + Constants.GRAVITY)%Q.
Proof. repeat split. Qed.

(** One step of gravity: the vertical velocity grows by [GRAVITY], the
    bird moves by the new velocity and is clamped to [[radius, CANVAS_HEIGHT -
    radius]] (it moves exactly by the new velocity when that stays inside);
    horizontal position, horizontal velocity and radius are untouched. *)
Theorem updateBirdPosition_on_canvas :
  (Bird.radius b <= Viewport.CANVAS_HEIGHT - Bird.radius b)%Q ->
  (Bird.radius b <= Vec2.y (Bird.pos (updateBirdPosition b))
   /\ Vec2.y (Bird.pos (updateBirdPosition b)) <= Viewport.CANVAS_HEIGHT - Bird.radius b)%Q
  /\ ((Bird.radius b <= Vec2.y (Bird.pos b) + (Vec2.y (Bird.vel b) + Constants.GRAVITY)
       /\ Vec2.y (Bird.pos b) + (Vec2.y (Bird.vel b) + Constants.GRAVITY)
          <= Viewport.CANVAS_HEIGHT - Bird.radius b)%Q ->
      (Vec2.y (Bird.pos (updateBirdPosition b))
       == Vec2.y (Bird.pos b) + (Vec2.y (Bird.vel b) + Constants.GRAVITY))%Q)
  /\ Vec2.x (Bird.pos (updateBirdPosition b)) = Vec2.x (Bird.pos b)
  /\ Vec2.x (Bird.vel (updateBirdPosition b)) = Vec2.x (Bird.vel b)
  /\ Vec2.y (Bird.vel (updateBirdPosition b)) = (Vec2.y (Bird.vel b) + Constants.GRAVITY)%Q
  /\ Bird.radius (updateBirdPosition b) = Bird.radius b.
Proof.
  intros H. cbn [updateBirdPosition Bird.pos Bird.vel Bird.radius Vec2.x Vec2.y].
  destruct (clamp_bounds
              (Vec2.y (Bird.pos b) + (Vec2.y (Bird.vel b) + Constants.GRAVITY))
              (Bird.radius b) (Viewport.CANVAS_HEIGHT - Bird.radius b) H)
    as (Hb & Hid & _).
  repeat split; try apply Hb. intros Hin. apply Hid, Hin.
Qed.

End BirdPhysics.

Lemma updateBirdPosition_on_canvas_witness :
  (7 <= Vec2.y (Bird.pos (updateBirdPosition topBird)))%Q.
Proof.
  apply (updateBirdPosition_on_canvas topBird). vm_compute. discriminate.
Defined.

Section SpeedMultiplier.

Variable st : State.
Variable currentTime : Z.

Lemma speedMultiplier_facts :
  (getCurrentSpeedMultiplier st currentTime <= 1)%Q
  /\ (slowDownActive st = false \/ slowDownEndTime st <= currentTime ->
      getCurrentSpeedMultiplier st currentTime = 1%Q)
  /\ (slowDownEndTime st - Constants.SLOW_DOWN_DURATION <= currentTime ->
      (Constants.SLOW_DOWN_MIN_MULTIPLIER <= getCurrentSpeedMultiplier st currentTime)%Q)
  /\ (slowDownActive st = true ->
      currentTime = slowDownEndTime st - Constants.SLOW_DOWN_DURATION ->
      (getCurrentSpeedMultiplier st currentTime == Constants.SLOW_DOWN_MIN_MULTIPLIER)%Q).
Proof.
  unfold getCurrentSpeedMultiplier.
  set (e := slowDownEndTime st).
  set (p := (inject_Z (currentTime - (e - Constants.SLOW_DOWN_DURATION))
             / inject_Z Constants.SLOW_DOWN_DURATION)%Q).
  set (m := (Constants.SLOW_DOWN_MIN_MULTIPLIER * (1 - p) + 1 * p)%Q).
  assert (Hp : e - Constants.SLOW_DOWN_DURATION <= currentTime -> (0 <= p)%Q).
  { intros H. unfold p. apply Qle_shift_div_l; [reflexivity |].
    rewrite Qmult_0_l. change 0%Q with (inject_Z 0). rewrite <- Zle_Qle. lia. }
  assert (Hp1 : currentTime < e -> (p < 1)%Q).
  { intros H. unfold p. apply Qlt_shift_div_r; [reflexivity |].
    rewrite Qmult_1_l. rewrite <- Zlt_Qlt. lia. }
  assert (Hmin : (Qmin 1 m <= 1)%Q) by apply Q.le_min_l.
  split; [| split; [| split]].
  - destruct (negb (slowDownActive st) || (e <=? currentTime)); [apply Qle_refl | exact Hmin].
  - intros [-> | H]; [reflexivity |].
    apply Z.leb_le in H. rewrite H, orb_true_r. reflexivity.
  - intros H.
    destruct (negb (slowDownActive st)); cbn [orb]; [discriminate |].
    destruct (Z.leb_spec e currentTime); [discriminate |].
    specialize (Hp H). specialize (Hp1 ltac:(assumption)).
    apply Q.min_glb; [discriminate |].
    unfold m, Constants.SLOW_DOWN_MIN_MULTIPLIER. lra.
  - intros -> ->. cbn [negb orb]. fold e.
    destruct (Z.leb_spec e (e - Constants.SLOW_DOWN_DURATION));
      [unfold Constants.SLOW_DOWN_DURATION in *; lia |].
    assert (E : (p == 0)%Q).
    { unfold p. replace (e - Constants.SLOW_DOWN_DURATION - (e - Constants.SLOW_DOWN_DURATION))
        with 0 by lia. reflexivity. }
    rewrite Q.min_r; unfold m; rewrite E; [reflexivity | discriminate].
Qed.

End SpeedMultiplier.

(** The speed multiplier never exceeds 1, is 1 when the effect is inactive or
    over, is at least [SLOW_DOWN_MIN_MULTIPLIER] from the start of the effect
    on, and is exactly the minimum at the start. *)
Theorem speedMultiplier_bounds (st : State) (currentTime : Z) :
  (getCurrentSpeedMultiplier st currentTime <= 1)%Q
  /\ (slowDownActive st = false \/ slowDownEndTime st <= currentTime ->
      getCurrentSpeedMultiplier st currentTime = 1%Q)
  /\ (slowDownEndTime st - Constants.SLOW_DOWN_DURATION <= currentTime ->
      (Constants.SLOW_DOWN_MIN_MULTIPLIER <= getCurrentSpeedMultiplier st currentTime)%Q)
  /\ (slowDownActive st = true ->
      currentTime = slowDownEndTime st - Constants.SLOW_DOWN_DURATION ->
      (getCurrentSpeedMultiplier st currentTime == Constants.SLOW_DOWN_MIN_MULTIPLIER)%Q).
Proof. exact (speedMultiplier_facts st currentTime). Qed.

(** ** The random number generator, chained *)



(** ** Bounce *)

Section BounceFacts.

Variable b : Bird.t.
Variable ps : list Pipe.t.
Variable boundary : bool.
Variable seed0 : Z.
Hypothesis seed_range : 0 <= seed0 <= 2 ^ 53.

(** On a seed in [0 .. 2^53] the bounce consumes the seed once, its speed is
    in [[BOUNCE_VELOCITY_MIN, BOUNCE_VELOCITY_MAX)] either way, and a boundary
    hit bounces down from the top edge and up from the bottom edge. *)
Theorem calculateBounce_magnitude :
  Bounce.nextSeed (calculateBounce b ps boundary seed0) = RNG.hash seed0
  /\ ((Constants.BOUNCE_VELOCITY_MIN
         <= Bounce.bounceVelocity (calculateBounce b ps boundary seed0)
       /\ Bounce.bounceVelocity (calculateBounce b ps boundary seed0)
          < Constants.BOUNCE_VELOCITY_MAX)%Q
      \/ (- Constants.BOUNCE_VELOCITY_MAX
          < Bounce.bounceVelocity (calculateBounce b ps boundary seed0)
          /\ Bounce.bounceVelocity (calculateBounce b ps boundary seed0)
             <= - Constants.BOUNCE_VELOCITY_MIN)%Q)
  /\ (boundary = true ->
      if Num.leb (Vec2.y (Bird.pos b)) (Bird.radius b)
      then (Constants.BOUNCE_VELOCITY_MIN
            <= Bounce.bounceVelocity (calculateBounce b ps boundary seed0))%Q
      else (Bounce.bounceVelocity (calculateBounce b ps boundary seed0)
            <= - Constants.BOUNCE_VELOCITY_MIN)%Q).
Proof.
  destruct (randomBetween_range_nonneg_seed seed0
              Constants.BOUNCE_VELOCITY_MIN Constants.BOUNCE_VELOCITY_MAX
              seed_range ltac:(reflexivity)) as ([Hlo Hhi] & Hseed & _).
  unfold calculateBounce.
  set (r := randomBetween seed0 Constants.BOUNCE_VELOCITY_MIN Constants.BOUNCE_VELOCITY_MAX) in *.
  assert (Hneg : (- Constants.BOUNCE_VELOCITY_MAX < - value r
                  /\ - value r <= - Constants.BOUNCE_VELOCITY_MIN)%Q) by (split; lra).
  split; [| split].
  - destruct boundary; [reflexivity |]. destruct (find _ ps); reflexivity.
  - destruct boundary.
    + cbn [Bounce.bounceVelocity].
      destruct (Num.leb _ _); [left; split; assumption | right; exact Hneg].
    + destruct (find _ ps) as [pipe |]; cbn [Bounce.bounceVelocity].
      * destruct (Num.ltb _ _); [left; split; assumption | right; exact Hneg].
      * left; split; assumption.
  - intros ->. cbn [Bounce.bounceVelocity].
    destruct (Num.leb _ _); [exact Hlo | apply Hneg].
Qed.

End BounceFacts.

Lemma calculateBounce_magnitude_witness :
  Bounce.nextSeed (calculateBounce topBird [] true 123456789) = RNG.hash 123456789.
Proof.
  apply (calculateBounce_magnitude topBird [] true 123456789).
  vm_compute. split; discriminate.
Defined.

(** ** Steps of [Tick] *)

Section TickSteps.

(** Ticks never give a life back and take at most one each. *)
Theorem ticks_lives (s : State) (n : nat) :
  lives s - Z.of_nat n <= lives (ticks n s) <= lives s.
Proof.
  revert s. induction n as [| n IH]; intros s; [cbn; lia |].
  cbn [ticks]. specialize (IH (Tick_apply s)).
  pose proof (Tick_lives s) as H.
  destruct (simulating s && hasDamageCollision s); lia.
Qed.

(** An ended, unstarted or paused game is a fixed point of any number of
    ticks. *)
Theorem ticks_idle (s : State) (n : nat) : idle s = true -> ticks n s = s.
Proof.
  intros H. induction n as [| n IH]; [reflexivity |].
  cbn [ticks]. rewrite Tick_idle by exact H. exact IH.
Qed.

Lemma markPassed_samePipe (b : Bird.t) (p : Pipe.t) : samePipeLater p (markPassed b p).
Proof.
  unfold samePipeLater, markPassed.
  destruct (negb (Pipe.passed p) && _); cbn; auto 6.
Qed.

(** A tick adds no pipe: every pipe it returns is a pipe of the input with
    the same id, gap and width, still marked if it was marked; and after a
    tick that runs the simulation every pipe is on screen. *)
Theorem Tick_pipes (s : State) :
  (length (pipes (Tick_apply s)) <= length (pipes s))%nat
  /\ (forall after, In after (pipes (Tick_apply s)) ->
      exists before, In before (pipes s) /\ samePipeLater before after)
  /\ (simulating s = true ->
      forall after, In after (pipes (Tick_apply s)) ->
      (Constants.OFFSCREEN_THRESHOLD < Pipe.x after + Pipe.width after)%Q).
Proof.
  destruct (simulating s) eqn:Hsim.
  - assert (E : pipes (Tick_apply s)
                = map (markPassed (updatedBird s))
                    (removeOffscreenPipes
                       (movePipes (currentSpeedMultiplier s) (pipes s)))).
    { rewrite Tick_simulating by exact Hsim.
      destruct (hasPhysicalCollision s); reflexivity. }
    rewrite E. unfold removeOffscreenPipes, movePipes. split; [| split].
    + rewrite length_map.
      etransitivity; [apply filter_length_le | rewrite length_map; reflexivity].
    + intros after Hin. apply in_map_iff in Hin as (mid & <- & Hmid).
      apply filter_In in Hmid as [Hmid _].
      apply in_map_iff in Hmid as (before & <- & Hbefore).
      exists before. split; [exact Hbefore |].
      match goal with
      | |- samePipeLater _ (markPassed _ ?moved) =>
          destruct (markPassed_samePipe (updatedBird s) moved) as (H1 & H2 & H3 & H4 & H5)
      end.
      repeat split; assumption.
    + intros _ after Hin. apply in_map_iff in Hin as (mid & <- & Hmid).
      apply filter_In in Hmid as [_ Hon]. apply ltb_lt in Hon.
      unfold markPassed. destruct (negb (Pipe.passed mid) && _); exact Hon.
  - assert (E : pipes (Tick_apply s) = pipes s).
    { destruct (Tick_not_simulating s Hsim) as [-> | ->]; reflexivity. }
    rewrite E. split; [reflexivity | split; [| discriminate]].
    intros after Hin. exists after. split; [exact Hin |].
    repeat split; auto.
Qed.

End TickSteps.

(** ** The resume countdown *)

Section Countdown.

Lemma sameGame_refl (s : State) : sameGame s s.
Proof. repeat split. Qed.

Lemma sameGame_trans (s1 s2 s3 : State) : sameGame s1 s2 -> sameGame s2 s3 -> sameGame s1 s3.
Proof.
  unfold sameGame. intros H1 H2.
  decompose [and] H1. decompose [and] H2. repeat split; congruence.
Qed.

Lemma sameGame_countdownState (s : State) : sameGame s (countdownState s).
Proof. unfold sameGame. cbn. repeat split. Qed.

(** A countdown that has run for [e] milliseconds keeps the game frozen for
    as many further ticks as start before the 3000 ms are over. *)
Lemma countdown_ticks (k : nat) :
  forall s : State,
    idle s = false ->
    0 < countdown s ->
    countdownTime s <= time s ->
    (k = 0%nat \/ time s - countdownTime s + 16 * (Z.of_nat k - 1) < 3000) ->
    sameGame s (ticks k s)
    /\ idle (ticks k s) = false
    /\ time (ticks k s) = time s + 16 * Z.of_nat k
    /\ countdownTime (ticks k s) = countdownTime s
    /\ ((1 <= k)%nat ->
        countdown (ticks k s)
        = Z.max 0 (3 - (time s - countdownTime s + 16 * Z.of_nat k) / 1000)).
Proof.
  induction k as [| k IH]; intros s Hidle Hcd Hct Hk.
  - cbn [ticks]. repeat split; try lia. exact Hidle.
  - cbn [ticks]. rewrite (Tick_countdown s Hidle Hcd).
    destruct Hk as [Hk | Hk]; [discriminate |].
    assert (Hnext : countdown (countdownState s)
                    = Z.max 0 (3 - (time s - countdownTime s + 16) / 1000)).
    { cbn [countdownState countdown]. unfold newCountdown, elapsedSinceCountdown, newTime.
      unfold Constants.TICK_RATE_MS, Constants.COUNTDOWN_DURATION_MS.
      do 3 f_equal. lia. }
    destruct k as [| k].
    + cbn [ticks]. repeat split; try reflexivity; [exact Hidle |].
      intros _. rewrite Hnext. reflexivity.
    + assert (Hpos : 0 < countdown (countdownState s)).
      { rewrite Hnext.
        assert ((time s - countdownTime s + 16) / 1000 <= 2); [| lia].
        apply Z.lt_succ_r. apply Z.div_lt_upper_bound; lia. }
      destruct (IH (countdownState s)) as (Hsame & Hi & Ht & Hc & Hn).
      * exact Hidle.
      * exact Hpos.
      * cbn [countdownState time countdownTime]. unfold newTime, Constants.TICK_RATE_MS. lia.
      * right. cbn [countdownState time countdownTime]. unfold newTime, Constants.TICK_RATE_MS. lia.
      * split; [| split; [exact Hi | split; [| split; [exact Hc |]]]].
        -- apply (sameGame_trans s (countdownState s)); [apply sameGame_countdownState | exact Hsame].
        -- rewrite Ht. cbn [countdownState time]. unfold newTime, Constants.TICK_RATE_MS. lia.
        -- intros _. rewrite Hn by lia. cbn [countdownState time countdownTime].
           unfold newTime, Constants.TICK_RATE_MS. do 3 f_equal. lia.
Qed.

Lemma resume_frozen (s : State) :
  idle s = false ->
  countdown s = 3 ->
  countdownTime s = time s ->
  (forall k : nat, (k <= 188)%nat ->
     sameGame s (ticks k s) /\ time (ticks k s) = time s + 16 * Z.of_nat k)
  /\ (forall k : nat, (k <= 187)%nat -> 0 < countdown (ticks k s))
  /\ countdown (ticks 188 s) = 0
  /\ simulating (ticks 188 s) = true
  /\ gameTime (ticks 189 s) = gameTime s + Constants.TICK_RATE_MS.
Proof.
  intros Hidle Hcd Hct.
  assert (Hrun : forall k : nat, (k <= 188)%nat ->
            sameGame s (ticks k s)
            /\ idle (ticks k s) = false
            /\ time (ticks k s) = time s + 16 * Z.of_nat k
            /\ ((1 <= k)%nat -> countdown (ticks k s) = Z.max 0 (3 - (16 * Z.of_nat k) / 1000))).
  { intros k Hk.
    destruct (countdown_ticks k s Hidle ltac:(lia) ltac:(lia)) as (H1 & H2 & H3 & _ & H5).
    - destruct k; [left; reflexivity | right; lia].
    - split; [exact H1 | split; [exact H2 | split; [exact H3 |]]].
      intros Hk1. rewrite (H5 Hk1). do 3 f_equal. lia. }
  assert (H188 : countdown (ticks 188 s) = 0).
  { destruct (Hrun 188%nat ltac:(lia)) as (_ & _ & _ & Hc). rewrite Hc by lia. reflexivity. }
  assert (Hsim : simulating (ticks 188 s) = true).
  { apply simulating_spec. destruct (Hrun 188%nat ltac:(lia)) as (_ & Hi & _).
    split; [exact Hi | lia]. }
  split; [| split; [| split; [exact H188 | split; [exact Hsim |]]]].
  - intros k Hk. destruct (Hrun k Hk) as (H1 & _ & H3 & _). split; assumption.
  - intros k Hk. destruct k as [| k]; [cbn [ticks]; lia |].
    destruct (Hrun (S k) ltac:(lia)) as (_ & _ & _ & Hc). rewrite Hc by lia.
    assert (16 * Z.of_nat (S k) / 1000 <= 2); [| lia].
    apply Z.lt_succ_r. apply Z.div_lt_upper_bound; lia.
  - change 189%nat with (S 188).
    assert (E : forall n t, ticks (S n) t = Tick_apply (ticks n t)).
    { induction n as [| n IHn]; intros t; [reflexivity |].
      cbn [ticks] in *. apply IHn. }
    rewrite E, Tick_gameTime, Hsim.
    destruct (Hrun 188%nat ltac:(lia)) as (Hs & _).
    unfold sameGame in Hs. decompose [and] Hs. congruence.
Qed.

(** Resuming takes 188 ticks: from the state [Pause] leaves when it unpauses
    (countdown 3, started at the current time) the game proper is frozen for
    188 ticks, the countdown is positive after each of the first 187 and zero
    after the 188th, and the 189th tick advances the game clock again. *)
Theorem resume_takes_188_ticks (s : State) :
  idle s = false ->
  countdown s = 3 ->
  countdownTime s = time s ->
  (forall k : nat, (k <= 188)%nat ->
     sameGame s (ticks k s) /\ time (ticks k s) = time s + 16 * Z.of_nat k)
  /\ (forall k : nat, (k <= 187)%nat -> 0 < countdown (ticks k s))
  /\ countdown (ticks 188 s) = 0
  /\ simulating (ticks 188 s) = true
  /\ gameTime (ticks 189 s) = gameTime s + Constants.TICK_RATE_MS.
Proof. exact (resume_frozen s). Qed.

(** Pausing and resuming: from a live, unpaused state, [Pause], [Pause] and
    188 ticks give back the same game (bird, pipes, power-ups, score, lives,
    game clock, trace, seed), 3008 ms later on the wall clock, with the
    simulation running again. *)
Theorem pause_resume_same_game (s : State) :
  idle s = false ->
  sameGame s (ticks 188 (Pause_apply (Pause_apply s)))
  /\ time (ticks 188 (Pause_apply (Pause_apply s))) = time s + 3008
  /\ simulating (ticks 188 (Pause_apply (Pause_apply s))) = true
  /\ Tick_apply (Pause_apply s) = Pause_apply s.
Proof.
  intros Hidle. unfold idle in Hidle.
  apply orb_false_iff in Hidle as [Hidle Hp]. apply orb_false_iff in Hidle as [He Hs].
  apply negb_false_iff in Hs.
  assert (E1 : Pause_apply s = withPause s true 0 0).
  { unfold Pause_apply. rewrite Hs, He, Hp. reflexivity. }
  assert (E2 : Pause_apply (Pause_apply s) = withPause s false 3 (time s)).
  { rewrite E1. unfold Pause_apply. cbn [withPause gameStarted gameEnd isPaused time].
    rewrite Hs, He. reflexivity. }
  rewrite E2.
  destruct (resume_frozen (withPause s false 3 (time s))) as (Hrun & _ & _ & Hsim & _).
  - unfold idle. cbn [withPause gameStarted gameEnd isPaused]. rewrite Hs, He. reflexivity.
  - reflexivity.
  - reflexivity.
  - destruct (Hrun 188%nat ltac:(lia)) as [Hsame Ht].
    split; [| split; [| split]].
    + apply (sameGame_trans s (withPause s false 3 (time s))); [| exact Hsame].
      unfold sameGame. cbn. repeat split.
    + rewrite Ht. cbn [withPause time]. lia.
    + exact Hsim.
    + rewrite E1. apply Tick_idle. unfold idle. cbn [withPause isPaused]. apply orb_true_r.
Qed.

End Countdown.

Lemma pause_resume_same_game_witness :
  time (ticks 188 (Pause_apply (Pause_apply runningAt10000))) = time runningAt10000 + 3008.
Proof.
  apply (pause_resume_same_game runningAt10000). reflexivity.
Defined.

(** ** States of the fold over the action stream *)

Section Reachability.

Lemma run_invariant (P : State -> Prop) :
  (forall a s, P s -> P (apply a s)) ->
  forall actions s, P s -> P (run actions s).
Proof.
  intros Hstep actions. unfold run.
  induction actions as [| a actions IH]; intros s Hs; [exact Hs |].
  cbn [fold_left]. apply IH. apply Hstep, Hs.
Qed.

(** Case analysis on what a tick returns. *)
Lemma Tick_cases (s : State) :
  Tick_apply s = s
  \/ Tick_apply s = countdownState s /\ idle s = false /\ 0 < countdown s
  \/ simulating s = true
     /\ Tick_apply s = (if hasPhysicalCollision s then collisionState s else baseState s).
Proof.
  destruct (simulating s) eqn:Hsim.
  - right; right. split; [reflexivity | apply Tick_simulating, Hsim].
  - destruct (idle s) eqn:Hi.
    + left. apply Tick_idle, Hi.
    + right; left. unfold simulating in Hsim. rewrite Hi in Hsim. cbn in Hsim.
      apply Z.leb_gt in Hsim. split; [apply Tick_countdown; assumption | auto].
Qed.

Lemma simulating_flags (s : State) :
  simulating s = true ->
  gameEnd s = false /\ gameStarted s = true /\ isPaused s = false /\ countdown s <= 0.
Proof.
  intros H. apply simulating_spec in H as [Hi Hc]. unfold idle in Hi.
  apply orb_false_iff in Hi as [Hi Hp]. apply orb_false_iff in Hi as [He Hs].
  apply negb_false_iff in Hs. auto.
Qed.

Lemma Flap_cases (s : State) :
  Flap_apply s = Restart_apply s
  \/ Flap_apply s = s
  \/ gameEnd s = false /\ isPaused s = false /\ gameStarted s = false
     /\ Flap_apply s = withBirdStartedGameTime s (flapBird (bird s)) true 0
  \/ gameEnd s = false /\ isPaused s = false /\ gameStarted s = true
     /\ Flap_apply s = withBirdStartedGameTime s (flapBird (bird s)) true (gameTime s).
Proof.
  unfold Flap_apply.
  destruct (gameEnd s); [left; reflexivity |].
  destruct (isPaused s); [right; left; reflexivity |].
  destruct (gameStarted s) eqn:E; cbn [negb]; right; right; [right | left]; auto.
Qed.

Lemma Pause_cases (s : State) :
  Pause_apply s = s
  \/ gameStarted s = true /\ gameEnd s = false
     /\ (Pause_apply s = withPause s false 3 (time s)
         \/ Pause_apply s = withPause s true 0 0).
Proof.
  unfold Pause_apply.
  destruct (gameStarted s); [| left; reflexivity].
  destruct (gameEnd s); [left; reflexivity |]. cbn [negb orb].
  right. destruct (isPaused s); auto.
Qed.

(** *** The trace *)

Lemma TraceInSync_step (a : Action) (s : State) : TraceInSync s -> TraceInSync (apply a s).
Proof.
  unfold TraceInSync. intros [Ht Hn]. destruct a; cbn [apply].
  - destruct (Tick_cases s) as [-> | [(-> & _) | (Hsim & ->)]]; [auto | auto |].
    apply simulating_flags in Hsim as (_ & Hs & _).
    assert (E : forall b : bool,
               gameTime (if b then collisionState s else baseState s) = newGameTime s
               /\ currentRun (if b then collisionState s else baseState s) = newCurrentRun s
               /\ gameStarted (if b then collisionState s else baseState s) = gameStarted s)
      by (intros []; repeat split).
    destruct (E (hasPhysicalCollision s)) as (-> & -> & ->).
    unfold newGameTime, newCurrentRun. rewrite length_app. cbn [length].
    split; [lia | congruence].
  - destruct (Flap_cases s) as [-> | [-> | [(_ & _ & Hs & ->) | (_ & _ & Hs & ->)]]].
    + cbn. auto.
    + auto.
    + cbn [withBirdStartedGameTime gameTime currentRun gameStarted].
      rewrite (Hn Hs). cbn. split; [reflexivity | discriminate].
    + cbn [withBirdStartedGameTime gameTime currentRun gameStarted]. split; [exact Ht | discriminate].
  - destruct (Pause_cases s) as [-> | (_ & _ & [-> | ->])]; auto.
  - cbn. auto.
  - cbn [SpawnPipe_apply gameTime currentRun gameStarted]. auto.
Qed.

(** In every state of the fold the trace holds one position per simulated
    frame: the game clock is [TICK_RATE_MS] times the length of the trace, the
    ghost frame index is that length, and before the first flap the trace is
    empty. *)
Theorem reachable_trace_in_sync (queue : list PipeData.t) (actions : list Action) :
  gameTime (run actions (startState queue))
  = Constants.TICK_RATE_MS * Z.of_nat (length (currentRun (run actions (startState queue))))
  /\ ghostAnimationFrame (run actions (startState queue))
     = Z.of_nat (length (currentRun (run actions (startState queue))))
  /\ (gameStarted (run actions (startState queue)) = false ->
      currentRun (run actions (startState queue)) = []).
Proof.
  destruct (run_invariant TraceInSync TraceInSync_step actions (startState queue)) as [Ht Hn].
  { split; [reflexivity | reflexivity]. }
  split; [exact Ht | split; [| exact Hn]].
  unfold ghostAnimationFrame. rewrite Ht. unfold Constants.TICK_RATE_MS.
  rewrite Z.mul_comm. apply Z.div_mul. lia.
Qed.

(** *** Lives, end flags, score *)

Lemma LivesSound_step (a : Action) (s : State) : LivesSound s -> LivesSound (apply a s).
Proof.
  unfold LivesSound, Constants.INITIAL_LIVES. intros (Hl & He & Hw & Hsc).
  destruct a; cbn [apply].
  - destruct (Tick_cases s) as [-> | [(-> & _) | (Hsim & ->)]]; [auto | auto |].
    apply simulating_flags in Hsim as (Hend & _). specialize (He Hend).
    pose proof (updateScore_flips (updatedBird s) (cleanedPipes s) (score s)) as [_ Hscore].
    fold (scoreResult s) in Hscore. fold (newScore s) in Hscore.
    destruct (hasPhysicalCollision s).
    + cbn [collisionState baseState lives gameEnd gameWon score].
      unfold newLives. cbn [baseState lives].
      split; [destruct (hasDamageCollision s); lia |].
      split; [| split; [| lia]].
      * intros H. apply orb_false_iff in H as [_ H]. apply Z.leb_gt in H. lia.
      * intros H. apply andb_true_iff in H as [H1 H2]. apply Z.ltb_lt in H2.
        rewrite H1. split; [reflexivity | lia].
    + cbn [baseState lives gameEnd gameWon score].
      split; [lia | split; [auto | split; [auto | lia]]].
  - destruct (Flap_cases s) as [-> | [-> | [(_ & _ & _ & ->) | (_ & _ & _ & ->)]]];
      [cbn; repeat split; try lia; try discriminate | auto | auto | auto].
  - destruct (Pause_cases s) as [-> | (_ & _ & [-> | ->])]; auto.
  - cbn. repeat split; try lia; discriminate.
  - cbn [SpawnPipe_apply lives gameEnd gameWon score]. auto.
Qed.

(** In every state of the fold lives are between 0 and [INITIAL_LIVES], a
    game that has not ended has a life left, a won game has ended with a life
    left, and the score is not negative. *)
Theorem reachable_lives_sound (queue : list PipeData.t) (actions : list Action) :
  LivesSound (run actions (startState queue)).
Proof.
  apply run_invariant; [exact LivesSound_step |].
  unfold LivesSound. cbn. repeat split; try lia; discriminate.
Qed.

(** *** The seed *)

Lemma SeedInRange_step (a : Action) (s : State) : SeedInRange s -> SeedInRange (apply a s).
Proof.
  unfold SeedInRange. intros H. destruct a; cbn [apply].
  - rewrite Tick_rngSeed.
    destruct (simulating s && hasPhysicalCollision s); [apply hash_range; lia | exact H].
  - destruct (Flap_cases s) as [-> | [-> | [(_ & _ & _ & ->) | (_ & _ & _ & ->)]]];
      [cbn; lia | auto | auto | auto].
  - destruct (Pause_cases s) as [-> | (_ & _ & [-> | ->])]; auto.
  - cbn. lia.
  - exact H.
Qed.

(** In every state of the fold the seed is a residue in [0 .. m - 2]. *)
Theorem reachable_seed_in_range (queue : list PipeData.t) (actions : list Action) :
  0 <= rngSeed (run actions (startState queue)) <= RNG.m - 2.
Proof.
  apply (run_invariant SeedInRange SeedInRange_step). unfold SeedInRange. cbn. lia.
Qed.

(** *** Countdown and pause *)

Lemma ClockSound_step (a : Action) (s : State) : ClockSound s -> ClockSound (apply a s).
Proof.
  unfold ClockSound. intros (Hc & Ht & Hp). destruct a; cbn [apply].
  - destruct (Tick_cases s) as [-> | [(-> & Hi & _) | (Hsim & ->)]]; [auto | |].
    + cbn [countdownState countdown countdownTime time isPaused gameStarted gameEnd].
      unfold newCountdown, elapsedSinceCountdown, newTime,
        Constants.TICK_RATE_MS, Constants.COUNTDOWN_DURATION_MS.
      assert (0 <= (time s + 16 - countdownTime s) / 1000) by (apply Z.div_pos; lia).
      split; [lia | split; [lia |]].
      intros Hpaused. unfold idle in Hi. rewrite Hpaused, orb_true_r in Hi. discriminate.
    + apply simulating_flags in Hsim as (_ & _ & Hnp & _).
      assert (E : forall b : bool,
                 countdown (if b then collisionState s else baseState s) = countdown s
                 /\ countdownTime (if b then collisionState s else baseState s) = countdownTime s
                 /\ time (if b then collisionState s else baseState s) = newTime s
                 /\ isPaused (if b then collisionState s else baseState s) = isPaused s)
        by (intros []; repeat split).
      destruct (E (hasPhysicalCollision s)) as (-> & -> & -> & ->).
      unfold newTime, Constants.TICK_RATE_MS.
      split; [lia | split; [lia | congruence]].
  - destruct (Flap_cases s) as [-> | [-> | [(He & Hnp & _ & ->) | (He & Hnp & _ & ->)]]].
    + cbn. repeat split; try lia; discriminate.
    + auto.
    + cbn [withBirdStartedGameTime countdown countdownTime time isPaused gameStarted gameEnd].
      split; [lia | split; [lia | congruence]].
    + cbn [withBirdStartedGameTime countdown countdownTime time isPaused gameStarted gameEnd].
      split; [lia | split; [lia | congruence]].
  - destruct (Pause_cases s) as [-> | (Hs & He & [-> | ->])]; [auto | |];
      cbn [withPause countdown countdownTime time isPaused gameStarted gameEnd].
    + split; [lia | split; [lia | discriminate]].
    + split; [lia | split; [lia | auto]].
  - cbn. repeat split; try lia; discriminate.
  - cbn [SpawnPipe_apply countdown countdownTime time isPaused gameStarted gameEnd]. auto.
Qed.

(** In every state of the fold the countdown is between 0 and 3, the
    countdown started no later than now, and a paused game is a started,
    unended game with no countdown. *)
Theorem reachable_clock_sound (queue : list PipeData.t) (actions : list Action) :
  ClockSound (run actions (startState queue)).
Proof.
  apply run_invariant; [exact ClockSound_step |].
  unfold ClockSound. cbn. repeat split; try lia; discriminate.
Qed.

End Reachability.

Section ReachabilityBird.

Lemma getCurrentBirdRadius_values (s : State) :
  (getCurrentBirdRadius s == 7 \/ getCurrentBirdRadius s == 21 # 5)%Q.
Proof.
  unfold getCurrentBirdRadius. destruct (shrinkActive s); [right | left]; reflexivity.
Qed.

Lemma updatedBird_on_canvas (s : State) :
  BirdOnCanvas s ->
  Vec2.x (Bird.pos (updatedBird s)) = Birb.INITIAL_X
  /\ Vec2.x (Bird.vel (updatedBird s)) = 0%Q
  /\ (Bird.radius (updatedBird s) == 7 \/ Bird.radius (updatedBird s) == 21 # 5)%Q
  /\ (21 # 5 <= Vec2.y (Bird.pos (updatedBird s))
      /\ Vec2.y (Bird.pos (updatedBird s)) <= Viewport.CANVAS_HEIGHT - (21 # 5))%Q.
Proof.
  intros (Hx & Hv & Hr & _).
  cbn [updatedBird updateBirdPosition Bird.pos Bird.vel Bird.radius Vec2.x Vec2.y].
  split; [exact Hx | split; [exact Hv | split; [apply getCurrentBirdRadius_values |]]].
  assert (Hle : (Bird.radius (bird s) <= Viewport.CANVAS_HEIGHT - Bird.radius (bird s))%Q).
  { unfold Viewport.CANVAS_HEIGHT. destruct Hr as [-> | ->]; discriminate. }
  destruct (clamp_bounds
              (Vec2.y (Bird.pos (bird s)) + (Vec2.y (Bird.vel (bird s)) + Constants.GRAVITY))
              (Bird.radius (bird s))
              (Viewport.CANVAS_HEIGHT - Bird.radius (bird s)) Hle) as ([Hlo Hhi] & _).
  unfold Viewport.CANVAS_HEIGHT in *.
  destruct Hr as [Er | Er]; split; lra.
Qed.

Lemma BirdOnCanvas_step (a : Action) (s : State) : BirdOnCanvas s -> BirdOnCanvas (apply a s).
Proof.
  intros H. destruct a; cbn [apply].
  - destruct (Tick_cases s) as [-> | [(-> & _) | (_ & ->)]]; [exact H | exact H |].
    pose proof (updatedBird_on_canvas s H) as Hu.
    destruct (hasPhysicalCollision s); exact Hu.
  - destruct (Flap_cases s) as [-> | [-> | [(_ & _ & _ & ->) | (_ & _ & _ & ->)]]].
    + unfold BirdOnCanvas. cbn. repeat split; try discriminate. left. reflexivity.
    + exact H.
    + exact H.
    + exact H.
  - destruct (Pause_cases s) as [-> | (_ & _ & [-> | ->])]; exact H.
  - unfold BirdOnCanvas. cbn. repeat split; try discriminate. left. reflexivity.
  - exact H.
Qed.

(** In every state of the fold the bird is at its initial horizontal
    position with no horizontal velocity, its radius is 7 or 4.2, and its
    centre is at least 4.2 inside the top and bottom of the canvas. *)
Theorem reachable_bird_on_canvas (queue : list PipeData.t) (actions : list Action) :
  BirdOnCanvas (run actions (startState queue)).
Proof.
  apply run_invariant; [exact BirdOnCanvas_step |].
  unfold BirdOnCanvas. cbn. repeat split; try discriminate. left. reflexivity.
Qed.

End ReachabilityBird.

Section ReachabilityPowerUps.

Lemma countType_filter (t : PowerUpType) (keep : PowerUp.t -> bool) (l : list PowerUp.t) :
  (countType t (filter keep l) <= countType t l)%nat.
Proof.
  unfold countType. induction l as [| p l IH]; [reflexivity |].
  cbn [filter]. destruct (keep p); cbn [filter];
    destruct (PowerUpType_eqb (PowerUp.type p) t); cbn [length]; lia.
Qed.

Lemma countType_map (t : PowerUpType) (f : PowerUp.t -> PowerUp.t) (l : list PowerUp.t) :
  (forall p, PowerUp.type (f p) = PowerUp.type p) ->
  countType t (map f l) = countType t l.
Proof.
  intros Hf. unfold countType. induction l as [| p l IH]; [reflexivity |].
  cbn [map filter]. rewrite Hf.
  destruct (PowerUpType_eqb (PowerUp.type p) t); cbn [length]; rewrite IH; reflexivity.
Qed.

Lemma countType_app (t : PowerUpType) (l l' : list PowerUp.t) :
  countType t (l ++ l') = (countType t l + countType t l')%nat.
Proof. unfold countType. rewrite filter_app, length_app. reflexivity. Qed.

(** With every power-up uncollected, "no outstanding power-up of type [t]"
    means no power-up of type [t] at all. *)
Lemma none_outstanding (t : PowerUpType) (l : list PowerUp.t) :
  (forall p, In p l -> PowerUp.collected p = false) ->
  existsb (fun p => PowerUpType_eqb (PowerUp.type p) t && negb (PowerUp.collected p)) l = false ->
  countType t l = 0%nat.
Proof.
  unfold countType. induction l as [| p l IH]; intros Hun Hex; [reflexivity |].
  cbn [existsb] in Hex. apply orb_false_iff in Hex as [Hp Hex].
  rewrite (Hun p (or_introl eq_refl)) in Hp. cbn [negb] in Hp. rewrite andb_true_r in Hp.
  cbn [filter]. rewrite Hp. apply IH; [| exact Hex].
  intros q Hq. apply Hun. right. exact Hq.
Qed.

Lemma powerUpsAfterCollection_sound (s : State) (t : PowerUpType) :
  (forall p, In p (powerUpsAfterCollection s) -> PowerUp.collected p = false)
  /\ (countType t (powerUpsAfterCollection s) <= countType t (powerUps s))%nat.
Proof.
  unfold powerUpsAfterCollection, updatedPowerUps, updatePowerUps. split.
  - intros p Hp. apply filter_In in Hp as [_ Hp]. apply negb_true_iff in Hp. exact Hp.
  - etransitivity; [apply countType_filter |].
    rewrite countType_map
      by (intros p; destruct (existsb _ (collectedPowerUps s)); reflexivity).
    etransitivity; [apply countType_filter |].
    rewrite countType_map by reflexivity. reflexivity.
Qed.

Lemma spawnPowerUpIfNeeded_sound
    (s : State) (l : list PowerUp.t) (should : bool) (t t' : PowerUpType) (seed0 off : Z) :
  ((forall p, In p l -> PowerUp.collected p = false) ->
   forall p, In p (spawnPowerUpIfNeeded s l should t seed0 off) -> PowerUp.collected p = false)
  /\ countType t' (spawnPowerUpIfNeeded s l should t seed0 off)
     = (countType t' l + (if should && PowerUpType_eqb t t' then 1 else 0))%nat.
Proof.
  unfold spawnPowerUpIfNeeded. destruct should; cbn [negb andb].
  - split.
    + intros Hun p Hp. apply in_app_or in Hp as [Hp | [<- | []]]; [apply Hun, Hp | reflexivity].
    + rewrite countType_app. unfold countType at 2. cbn [filter createPowerUp PowerUp.type].
      destruct (PowerUpType_eqb t t'); reflexivity.
  - split; [auto | lia].
Qed.

Lemma workingPowerUps_sound (s : State) :
  PowerUpsSound s ->
  (forall p, In p (workingPowerUps s) -> PowerUp.collected p = false)
  /\ (countType shrink (workingPowerUps s) <= 1)%nat
  /\ (countType slowDown (workingPowerUps s) <= 1)%nat.
Proof.
  intros (Hun & Hs & Hd).
  unfold workingPowerUps, powerUpsWithShrink.
  set (r := spawnResult s).
  destruct (powerUpsAfterCollection_sound s shrink) as [Hun0 Hs0].
  destruct (powerUpsAfterCollection_sound s slowDown) as [_ Hd0].
  set (l0 := powerUpsAfterCollection s) in *.
  set (l1 := spawnPowerUpIfNeeded s l0 (SpawnDecision.shouldSpawnShrink r) shrink
               (SpawnDecision.nextSeed r) 0).
  destruct (spawnPowerUpIfNeeded_sound s l0 (SpawnDecision.shouldSpawnShrink r) shrink shrink
              (SpawnDecision.nextSeed r) 0) as [Hun1 Hs1].
  destruct (spawnPowerUpIfNeeded_sound s l0 (SpawnDecision.shouldSpawnShrink r) shrink slowDown
              (SpawnDecision.nextSeed r) 0) as [_ Hd1].
  fold l1 in Hun1, Hs1, Hd1.
  destruct (spawnPowerUpIfNeeded_sound s l1 (SpawnDecision.shouldSpawnSlowDown r) slowDown shrink
              (SpawnDecision.nextSeed r + 1000) 1) as [Hun2 Hs2].
  destruct (spawnPowerUpIfNeeded_sound s l1 (SpawnDecision.shouldSpawnSlowDown r) slowDown slowDown
              (SpawnDecision.nextSeed r + 1000) 1) as [_ Hd2].
  split; [exact (Hun2 (Hun1 Hun0)) |].
  rewrite Hs2, Hd2, Hs1, Hd1. cbn [PowerUpType_eqb]. rewrite !andb_false_r, !andb_true_r.
  assert (Hshrink : SpawnDecision.shouldSpawnShrink r = true -> countType shrink (powerUps s) = 0%nat).
  { unfold r, spawnResult, shouldSpawnPowerUp. cbn [SpawnDecision.shouldSpawnShrink].
    intros H. apply andb_true_iff in H as [_ H]. apply negb_true_iff in H.
    apply none_outstanding; assumption. }
  assert (Hslow : SpawnDecision.shouldSpawnSlowDown r = true -> countType slowDown (powerUps s) = 0%nat).
  { unfold r, spawnResult, shouldSpawnPowerUp. cbn [SpawnDecision.shouldSpawnSlowDown].
    intros H. apply andb_true_iff in H as [_ H]. apply negb_true_iff in H.
    apply none_outstanding; assumption. }
  split.
  - destruct (SpawnDecision.shouldSpawnShrink r); [specialize (Hshrink eq_refl) |]; lia.
  - destruct (SpawnDecision.shouldSpawnSlowDown r); [specialize (Hslow eq_refl) |]; lia.
Qed.

Lemma PowerUpsSound_step (a : Action) (s : State) : PowerUpsSound s -> PowerUpsSound (apply a s).
Proof.
  intros H. destruct a; cbn [apply].
  - destruct (Tick_cases s) as [-> | [(-> & _) | (_ & ->)]]; [exact H | exact H |].
    pose proof (workingPowerUps_sound s H) as Hw.
    destruct (hasPhysicalCollision s); exact Hw.
  - destruct (Flap_cases s) as [-> | [-> | [(_ & _ & _ & ->) | (_ & _ & _ & ->)]]];
      [| exact H | exact H | exact H].
    unfold PowerUpsSound. cbn. split; [intros p [] | lia].
  - destruct (Pause_cases s) as [-> | (_ & _ & [-> | ->])]; exact H.
  - unfold PowerUpsSound. cbn. split; [intros p [] | lia].
  - exact H.
Qed.

(** In every state of the fold no power-up in the state is marked
    collected, and there is at most one shrink and one slow-down power-up. *)
Theorem reachable_powerUps_sound (queue : list PipeData.t) (actions : list Action) :
  PowerUpsSound (run actions (startState queue)).
Proof.
  apply run_invariant; [exact PowerUpsSound_step |].
  unfold PowerUpsSound. cbn. split; [intros p [] | lia].
Qed.

End ReachabilityPowerUps.

(** ** Pipe generation *)

Section PipeGeneration.






Lemma toInt32_congr (x y : Z) : x mod 2 ^ 32 = y mod 2 ^ 32 -> toInt32 x = toInt32 y.
Proof.
  intros H. unfold toInt32.
  rewrite <- (Z.add_mod_idemp_l x), <- (Z.add_mod_idemp_l y) by lia.
  rewrite H. reflexivity.
Qed.

Lemma toInt32_mod (x : Z) : toInt32 x mod 2 ^ 32 = x mod 2 ^ 32.
Proof.
  unfold toInt32. rewrite Zminus_mod_idemp_l. f_equal. lia.
Qed.

Lemma shiftLeft32_20 (a : Z) : shiftLeft32 a 20 = toInt32 (a * 2 ^ 20).
Proof.
  unfold shiftLeft32. change (20 mod 32) with 20. apply toInt32_congr.
  rewrite <- Z.mul_mod_idemp_l, toInt32_mod, Z.mul_mod_idemp_l by lia. reflexivity.
Qed.

(** Pipe ids are unique across sessions and spawn indices as long as fewer
    than 2048 games have been played and fewer than 2^20 pipes spawned in a
    game; the session part wraps around after 4096 games. *)
Theorem uniquePipeId_injective (t t' : State) (k k' : Z) :
  0 <= gameCount t < 2048 ->
  0 <= gameCount t' < 2048 ->
  0 <= pipeSpawnIndex t + k < 2 ^ 20 ->
  0 <= pipeSpawnIndex t' + k' < 2 ^ 20 ->
  (uniquePipeId t k = uniquePipeId t' k' ->
   gameCount t = gameCount t' /\ pipeSpawnIndex t + k = pipeSpawnIndex t' + k')
  /\ 0 <= uniquePipeId t k < 2 ^ 31
  /\ (forall a : Z, shiftLeft32 (a + 4096) 20 = shiftLeft32 a 20).
Proof.
  intros Hg Hg' Hi Hi'.
  assert (Hsmall : forall a, 0 <= a < 2048 -> shiftLeft32 a 20 = a * 2 ^ 20).
  { intros a Ha. rewrite shiftLeft32_20. unfold toInt32.
    rewrite Z.mod_small by lia. lia. }
  unfold uniquePipeId. rewrite !Hsmall by assumption.
  split; [| split].
  - intros H. lia.
  - lia.
  - intros a. rewrite !shiftLeft32_20. apply toInt32_congr.
    replace ((a + 4096) * 2 ^ 20) with (a * 2 ^ 20 + 1 * 2 ^ 32) by lia.
    apply Z.mod_add. lia.
Qed.

End PipeGeneration.



Lemma uniquePipeId_injective_witness :
  0 <= uniquePipeId spawnState 0 < 2 ^ 31.
Proof.
  apply (uniquePipeId_injective spawnState spawnState 0 0); cbn; lia.
Defined.

(** ** Ghost frames *)

Section GhostFrames.

Variable st : State.
Hypothesis started : gameStarted st = true.

Lemma ghosts_are_contributions (history : list GameHistory.t) (frame : Z) :
  calculateGhostPositions history frame st = flat_map (ghostOf frame) history.
Proof.
  unfold calculateGhostPositions. rewrite started.
  destruct history as [| h history]; [reflexivity |].
  cbn [negb orb length Nat.eqb]. apply filter_map_flat_map.
Qed.

(** With a non-negative frame every ghost is a recorded position, one for
    each run that lasted beyond the frame; with a negative frame the length
    test passes for every run and each run contributes [undefined]. *)
Theorem ghosts_by_frame_sign (history : list GameHistory.t) (frame : Z) :
  (0 <= frame ->
   Forall (fun g => exists position, g = GhostAt position)
     (calculateGhostPositions history frame st)
   /\ length (calculateGhostPositions history frame st)
      = length
          (filter
             (fun h => frame <? Z.of_nat (length (GameHistory.birdPositions h)))
             history))
  /\ (frame < 0 ->
      calculateGhostPositions history frame st = map (fun _ => GhostUndefined) history).
Proof.
  rewrite ghosts_are_contributions.
  split.
  - intros H0. induction history as [| h history IH]; [split; [constructor | reflexivity] |].
    destruct IH as [IHall IHlen]. cbn [flat_map filter].
    destruct (Z.ltb_spec frame (Z.of_nat (length (GameHistory.birdPositions h)))) as [Hlt | Hge].
    + destruct (ghostOf_inside frame h (conj H0 Hlt)) as (position & _ & ->).
      cbn [app length]. split; [constructor; [exists position; reflexivity | exact IHall] |].
      rewrite IHlen. reflexivity.
    + rewrite (ghostOf_outside frame h Hge). cbn [app]. split; assumption.
  - intros Hneg. induction history as [| h history IH]; [reflexivity |].
    cbn [flat_map map]. rewrite IH. f_equal.
    unfold ghostOf, positionAtFrame, readAt.
    destruct (Z.ltb_spec frame (Z.of_nat (length (GameHistory.birdPositions h)))); [| lia].
    destruct (Z.ltb_spec frame 0); [reflexivity | lia].
Qed.

End GhostFrames.

Lemma ghosts_by_frame_sign_witness :
  calculateGhostPositions mockHistory (-1) runningAt10000 = [GhostUndefined].
Proof.
  apply (proj2 (ghosts_by_frame_sign runningAt10000 eq_refl mockHistory (-1))). lia.
Defined.

Section RestartComposition.

Variable s : State.

(** A finished run is recorded once: a second [Restart] appends nothing,
    keeps the schedule and only counts one more session; [Flap] on an ended
    game is [Restart]; the restarted game stands still under [Tick] until the
    first flap, and the first tick after that flap starts the game clock with
    all lives. *)
Theorem Restart_twice :
  gameHistory (Restart_apply (Restart_apply s)) = gameHistory (Restart_apply s)
  /\ gameCount (Restart_apply (Restart_apply s)) = gameCount s + 2
  /\ pipeSpawnQueue (Restart_apply (Restart_apply s)) = originalPipeSpawnQueue s
  /\ (gameEnd s = true -> Flap_apply s = Restart_apply s)
  /\ (forall n : nat, ticks n (Restart_apply s) = Restart_apply s)
  /\ gameTime (Tick_apply (Flap_apply (Restart_apply s))) = Constants.TICK_RATE_MS
  /\ lives (Tick_apply (Flap_apply (Restart_apply s))) = Constants.INITIAL_LIVES.
Proof.
  split; [reflexivity | split; [cbn; lia | split; [reflexivity |]]].
  split; [intros H; unfold Flap_apply; rewrite H; reflexivity |].
  split.
  { intros n. induction n as [| n IH]; [reflexivity |].
    cbn [ticks]. rewrite Tick_idle by reflexivity. exact IH. }
  assert (Hsim : simulating (Flap_apply (Restart_apply s)) = true) by reflexivity.
  split.
  - rewrite Tick_gameTime, Hsim. reflexivity.
  - rewrite Tick_lives, Hsim.
    assert (Hd : hasDamageCollision (Flap_apply (Restart_apply s)) = false)
      by (vm_compute; reflexivity).
    rewrite Hd. reflexivity.
Qed.

End RestartComposition.

Section SpawnWindow.

Variable s : State.
Variable seed0 : Z.

(** The spawn decision: a shrink power-up is due exactly while the game
    clock is in [10000, 10100) and no uncollected shrink power-up is in the
    state, a slow-down power-up exactly while it is in [20000, 20100) and no
    uncollected slow-down power-up is in the state; the seed is handed back
    unchanged. *)
Theorem shouldSpawnPowerUp_window :
  (SpawnDecision.shouldSpawnShrink (shouldSpawnPowerUp s seed0) = true
   <-> 10000 <= gameTime s < 10100
       /\ existsb
            (fun p => PowerUpType_eqb (PowerUp.type p) shrink && negb (PowerUp.collected p))
            (powerUps s) = false)
  /\ (SpawnDecision.shouldSpawnSlowDown (shouldSpawnPowerUp s seed0) = true
      <-> 20000 <= gameTime s < 20100
          /\ existsb
               (fun p => PowerUpType_eqb (PowerUp.type p) slowDown && negb (PowerUp.collected p))
               (powerUps s) = false)
  /\ SpawnDecision.nextSeed (shouldSpawnPowerUp s seed0) = seed0.
Proof.
  unfold shouldSpawnPowerUp.
  cbn [SpawnDecision.shouldSpawnShrink SpawnDecision.shouldSpawnSlowDown SpawnDecision.nextSeed].
  split; [| split; [| reflexivity]].
  - rewrite !andb_true_iff, negb_true_iff, leb_le, ltb_lt.
    unfold Qle, Qlt, Qdiv, Qmult, Qinv, inject_Z. cbn. split; intros [[? ?] ?]; repeat split; try assumption; lia.
  - rewrite !andb_true_iff, negb_true_iff, leb_le, ltb_lt.
    unfold Qle, Qlt, Qdiv, Qmult, Qinv, inject_Z. cbn. split; intros [[? ?] ?]; repeat split; try assumption; lia.
Qed.

End SpawnWindow.

Lemma resume_takes_188_ticks_witness :
  countdown (ticks 188 unpausedState) = 0.
Proof.
  apply (resume_takes_188_ticks unpausedState); reflexivity.
Defined.

Section ReachabilitySlowDown.

Lemma finalSpeedMultiplier_bounds (s : State) :
  SlowDownSound s ->
  (newSlowDownActive s = true ->
   newSlowDownEndTime s - Constants.SLOW_DOWN_DURATION <= newTime s)
  /\ (Constants.SLOW_DOWN_MIN_MULTIPLIER <= finalSpeedMultiplier s
      /\ finalSpeedMultiplier s <= 1)%Q.
Proof.
  intros [Hact _].
  assert (Hstart : newSlowDownActive s = true ->
            newSlowDownEndTime s - Constants.SLOW_DOWN_DURATION <= newTime s).
  { unfold newSlowDownActive, newSlowDownEndTime.
    destruct (slowDownActivated s); [intros _; lia |]. cbn [orb].
    intros H. apply andb_true_iff in H as [H _]. specialize (Hact H).
    unfold newTime, Constants.TICK_RATE_MS. lia. }
  split; [exact Hstart |].
  unfold finalSpeedMultiplier.
  destruct (speedMultiplier_facts
              (withSlowDown s (newSlowDownActive s) (newSlowDownEndTime s)) (newTime s))
    as (Hle & Hone & Hmin & _).
  split; [| exact Hle].
  cbn [withSlowDown slowDownActive slowDownEndTime] in Hone, Hmin.
  destruct (newSlowDownActive s) eqn:Ha.
  - apply Hmin, Hstart. reflexivity.
  - rewrite Hone by (left; reflexivity). discriminate.
Qed.

Lemma SlowDownSound_step (a : Action) (s : State) : SlowDownSound s -> SlowDownSound (apply a s).
Proof.
  intros H. destruct a; cbn [apply].
  - destruct (Tick_cases s) as [-> | [(-> & _) | (_ & ->)]]; [exact H | |].
    + destruct H as [Hact Hm]. split; [| exact Hm].
      cbn [countdownState slowDownActive slowDownEndTime time].
      intros Ha. specialize (Hact Ha). unfold newTime, Constants.TICK_RATE_MS. lia.
    + pose proof (finalSpeedMultiplier_bounds s H) as Hf.
      destruct (hasPhysicalCollision s); exact Hf.
  - destruct (Flap_cases s) as [-> | [-> | [(_ & _ & _ & ->) | (_ & _ & _ & ->)]]];
      [| exact H | exact H | exact H].
    unfold SlowDownSound. cbn. repeat split; discriminate.
  - destruct (Pause_cases s) as [-> | (_ & _ & [-> | ->])]; exact H.
  - unfold SlowDownSound. cbn. repeat split; discriminate.
  - exact H.
Qed.

(** In every state of the fold the speed multiplier is between
    [SLOW_DOWN_MIN_MULTIPLIER] and 1. *)
Theorem reachable_slowDown_sound (queue : list PipeData.t) (actions : list Action) :
  SlowDownSound (run actions (startState queue)).
Proof.
  apply run_invariant; [exact SlowDownSound_step |].
  unfold SlowDownSound. cbn. repeat split; discriminate.
Qed.

End ReachabilitySlowDown.

(** [clamp] on ordered bounds lands in the bounds and is the identity inside
    them; on inverted bounds it returns the lower bound. *)
Theorem clamp_cases_all (v lo hi : Q) :
  ((lo <= hi)%Q ->
   (lo <= clamp v lo hi /\ clamp v lo hi <= hi)%Q
   /\ ((lo <= v /\ v <= hi)%Q -> (clamp v lo hi == v)%Q))
  /\ ((hi < lo)%Q -> (clamp v lo hi == lo)%Q).
Proof.
  split; [| apply clamp_inverted].
  intros H. destruct (clamp_bounds v lo hi H) as (Hb & Hid & _). split; assumption.
Qed.

Lemma ticks_idle_witness : ticks 100 pausedState = pausedState.
Proof. apply (ticks_idle pausedState 100). reflexivity. Defined.
